(** * medicineOCR: the barcode / GS1 decoding pipeline of [app/utils.py]

    A shallow embedding of [app/utils.py] ([scan_barcode],
    [enhance_image_for_barcode], [get_medicine_info_from_barcode], the
    parsers below it and [parse_ai_response]) and of the endpoints of
    [app/main.py] that call it, together with the properties its
    specification states about it.

    Conventions of the embedding:
    - a Python [str] that carries data (a payload, a symbology, the value
      of a field, the answer of the model) is a [text], the list of its
      code points; the names, paths and messages that the source writes
      or that the system hands back are [string]s;
    - the class [\d] of [re] accepts the ASCII digits and, beyond ASCII,
      what the Unicode database of the interpreter classes as a decimal
      digit; that part of the database is a parameter [nd];
    - a Python [dict] with string keys is a [gmap string pyval];
    - a Python exception is a value of [exception]; code that can raise
      returns a [result], code that also touches the file system, the
      environment or the standard output runs in the monad [M];
    - the libraries the module calls (PIL, pyzbar, OpenCV, the codec of
      [bytes.decode]) are fields of a record [capabilities]. *)

From Stdlib Require Import String Ascii List ZArith NArith Lia Bool.
From Stdlib Require Import Strings.Byte.
From stdpp Require Import base option list gmap strings.

Import ListNotations.
Local Open Scope string_scope.
Local Open Scope list_scope.

(** ** Text *)

(** A character is its code point. *)
Definition char : Type := N.

Definition text : Type := list char.

(** The literals of [text]: the ASCII characters between the quotes. *)
Inductive literal : Type :=
| LNil
| LCons (c : N) (l : literal).

Fixpoint literal_of_bytes (l : list byte) : option literal :=
  match l with
  | [] => Some LNil
  | b :: l' =>
      if N.ltb (Byte.to_N b) 128
      then option_map (LCons (Byte.to_N b)) (literal_of_bytes l')
      else None
  end.

Fixpoint bytes_of_literal (t : literal) : option (list byte) :=
  match t with
  | LNil => Some []
  | LCons c t' =>
      match Byte.of_N c, bytes_of_literal t' with
      | Some b, Some l =>
          if N.leb 32 c && N.ltb c 127 then Some (b :: l) else None
      | _, _ => None
      end
  end.

Declare Scope text_scope.
Delimit Scope text_scope with text.
Bind Scope text_scope with text.

Set Warnings "-via-type-mismatch,-via-type-remapping".
String Notation text literal_of_bytes bytes_of_literal
  (via literal mapping [[nil] => LNil, [cons] => LCons]) : text_scope.
Set Warnings "via-type-mismatch,via-type-remapping".

Notation "s +++ t" := (@app char s%text t%text)
  (at level 60, right associativity).

(** The code point of an ASCII character. *)
Definition code (c : ascii) : char := N_of_ascii c.

(** The text of a string of the source. *)
Fixpoint text_of_string (s : string) : text :=
  match s with
  | EmptyString => []
  | String c s' => code c :: text_of_string s'
  end.

Fixpoint text_eqb (s t : text) : bool :=
  match s, t with
  | [], [] => true
  | c :: s', d :: t' => N.eqb c d && text_eqb s' t'
  | _, _ => false
  end.

(** ** Python values and exceptions *)

Set Warnings "-register-all".

Inductive pyval : Type :=
| VNone
| VBool (b : bool)
| VInt (z : Z)
| VStr (s : text)
| VList (l : list pyval)
| VDict (d : list (string * pyval)).

Inductive exc_class : Type :=
| ValueError
| NameError
| AttributeError
| IndexError
| FileNotFoundError
| UnicodeDecodeError
| ReError
| LibraryError (name : string).

(** [exc_msg] is what [str(e)] returns. *)
Record exception : Type := Exc { exc_type : exc_class; exc_msg : string }.

Inductive result (A : Type) : Type :=
| Ok (a : A)
| Raise (e : exception).
Arguments Ok {A} a.
Arguments Raise {A} e.

Definition rbind {A B} (r : result A) (f : A -> result B) : result B :=
  match r with
  | Ok a => f a
  | Raise e => Raise e
  end.

(** ** Characters and strings *)

(** The ASCII digits, ['0'] to ['9']. *)
Definition ascii_digit (c : char) : bool := N.leb 48 c && N.leb c 57.

(** What [\d] accepts in a [str] pattern: a Unicode decimal digit.  Within
    ASCII these are ['0'] to ['9']; beyond ASCII they are the code points
    [nd] gives, the decimal digits of the interpreter's Unicode database. *)
Definition is_decimal (nd : char -> bool) (c : char) : bool :=
  if N.ltb c 128 then ascii_digit c else nd c.

(** A digit of a pattern, as in [{14}]. *)
Definition digit_value (c : ascii) : option nat :=
  let n := nat_of_ascii c in
  if Nat.leb 48 n && Nat.leb n 57 then Some (n - 48) else None.

Definition hex_value (c : ascii) : option nat :=
  match c with
  | "a" | "A" => Some 10 | "b" | "B" => Some 11 | "c" | "C" => Some 12
  | "d" | "D" => Some 13 | "e" | "E" => Some 14 | "f" | "F" => Some 15
  | _ => digit_value c
  end%char.

(** [s.startswith(p)] *)
Fixpoint startswith (s p : text) : bool :=
  match p, s with
  | [], _ => true
  | d :: p', c :: s' => N.eqb c d && startswith s' p'
  | _ :: _, [] => false
  end.

(** [s[a:b]] for [0 <= a <= b]; out-of-range bounds are clamped. *)
Definition slice (s : text) (a b : nat) : text := take (b - a) (drop a s).

Fixpoint str_drop (n : nat) (s : string) : string :=
  match n, s with
  | O, _ => s
  | S n', String _ s' => str_drop n' s'
  | S _, EmptyString => EmptyString
  end.

(** [s.replace(old, new)] for a non-empty [old]: the non-overlapping
    occurrences of [old] are replaced from left to right. *)
Fixpoint replace_from (fuel : nat) (old new s : string) : string :=
  match fuel with
  | O => s
  | S fuel' =>
      match s with
      | EmptyString => EmptyString
      | String c s' =>
          if String.prefix old s
          then new +:+ replace_from fuel' old new (str_drop (String.length old) s)
          else String c (replace_from fuel' old new s')
      end
  end.

Definition str_replace (s old new : string) : string :=
  replace_from (String.length s) old new s.

(** ** The fragment of [re] the module uses

    The five GS1 patterns use literals, the escapes [\d], [\\] and [\xHH],
    negated sets [[^...]], the quantifiers [+] and [{n}], and one capturing
    group.  [re_compile] reads exactly this fragment, from the text of a
    pattern of the source, and rejects the rest. *)

Module Re.

Inductive char_class : Type :=
| Literal (c : char)
| Digit
| NoneOf (cs : list char).

Inductive quantifier : Type :=
| Once
| Times (n : nat)
| OneOrMore.

Record atom : Type := Atom { a_class : char_class; a_quant : quantifier }.

(** [before(group)after] *)
Record regex : Type :=
  Regex { before : list atom; group1 : list atom; after : list atom }.

Record re_match : Type := Match { m_start : nat; m_group1 : text }.

Definition accepts (nd : char -> bool) (cl : char_class) (c : char) : bool :=
  match cl with
  | Literal x => N.eqb x c
  | Digit => is_decimal nd c
  | NoneOf cs => negb (existsb (N.eqb c) cs)
  end.

(** *** Reading a pattern *)

Definition special (c : ascii) : bool :=
  existsb (Ascii.eqb c)
    ["."; "^"; "$"; "*"; "+"; "?"; "{"; "}"; "["; "]"; "\"; "|"; "("; ")"]%char.

Definition hex_pair (h l : ascii) : option char :=
  match hex_value h, hex_value l with
  | Some a, Some b => Some (N.of_nat (16 * a + b))
  | _, _ => None
  end.

(** The members of a set, read up to the closing bracket.  Inside a set a
    doubled backslash is one backslash character and [\xHH] is the
    character with code [HH]; every other character stands for itself. *)
Fixpoint parse_set (s : string) (acc : list char)
  : option (list char * string) :=
  match s with
  | EmptyString => None
  | String "]" r =>
      match acc with
      | [] => None
      | _ => Some (rev acc, r)
      end
  | String "\" (String "\" r) => parse_set r (code "\" :: acc)
  | String "\" (String "x" (String h (String l r))) =>
      match hex_pair h l with
      | Some c => parse_set r (c :: acc)
      | None => None
      end
  | String "\" _ => None
  | String "-" _ => None
  | String c r => parse_set r (code c :: acc)
  end.

Definition parse_item (s : string) : option (char_class * string) :=
  match s with
  | String "\" (String "d" r) => Some (Digit, r)
  | String "\" (String "\" r) => Some (Literal (code "\"), r)
  | String "\" (String "x" (String h (String l r))) =>
      match hex_pair h l with
      | Some c => Some (Literal c, r)
      | None => None
      end
  | String "[" (String "^" r) =>
      match parse_set r [] with
      | Some (cs, r') => Some (NoneOf cs, r')
      | None => None
      end
  | String c r => if special c then None else Some (Literal (code c), r)
  | EmptyString => None
  end.

Fixpoint parse_count (s : string) (n : nat) (seen : bool)
  : option (nat * string) :=
  match s with
  | EmptyString => None
  | String "}" r => if seen then Some (n, r) else None
  | String c r =>
      match digit_value c with
      | Some d => parse_count r (10 * n + d) true
      | None => None
      end
  end.

Definition parse_quant (s : string) : option (quantifier * string) :=
  match s with
  | String "+" r => Some (OneOrMore, r)
  | String "{" r =>
      match parse_count r 0 false with
      | Some (n, r') => Some (Times n, r')
      | None => None
      end
  | _ => Some (Once, s)
  end.

(** Atoms up to the next parenthesis or the end of the pattern. *)
Fixpoint parse_atoms (fuel : nat) (s : string)
  : option (list atom * string) :=
  match fuel with
  | O => None
  | S fuel' =>
      match s with
      | EmptyString | String "(" _ | String ")" _ => Some ([], s)
      | _ =>
          match parse_item s with
          | None => None
          | Some (cl, r1) =>
              match parse_quant r1 with
              | None => None
              | Some (q, r2) =>
                  match parse_atoms fuel' r2 with
                  | None => None
                  | Some (l, r3) => Some (Atom cl q :: l, r3)
                  end
              end
          end
      end
  end.

Definition re_compile (pattern : string) : option regex :=
  let fuel := S (String.length pattern) in
  match parse_atoms fuel pattern with
  | Some (b, String "(" r1) =>
      match parse_atoms fuel r1 with
      | Some (g, String ")" r2) =>
          match parse_atoms fuel r2 with
          | Some (a, EmptyString) => Some (Regex b g a)
          | _ => None
          end
      | _ => None
      end
  | _ => None
  end.

(** *** Matching: greedy, with backtracking *)

Section Matcher.
Context {R : Type}.

(** [n] characters of the class, then [k]. *)
Fixpoint match_times (p : char -> bool) (n : nat)
         (k : text -> option R) (s : text) : option R :=
  match n with
  | O => k s
  | S n' =>
      match s with
      | c :: s' => if p c then match_times p n' k s' else None
      | [] => None
      end
  end.

(** One or more characters of the class, then [k]: the longest run is
    tried first and given back one character at a time while [k]
    fails. *)
Fixpoint match_plus (p : char -> bool)
         (k : text -> option R) (s : text) : option R :=
  match s with
  | c :: s' =>
      if p c then
        match match_plus p k s' with
        | Some r => Some r
        | None => k s'
        end
      else None
  | [] => None
  end.

Definition match_atom (nd : char -> bool) (a : atom)
           (k : text -> option R) (s : text) : option R :=
  match a_quant a with
  | Once => match_times (accepts nd (a_class a)) 1 k s
  | Times n => match_times (accepts nd (a_class a)) n k s
  | OneOrMore => match_plus (accepts nd (a_class a)) k s
  end.

Fixpoint match_seq (nd : char -> bool) (l : list atom)
         (k : text -> option R) (s : text) : option R :=
  match l with
  | [] => k s
  | a :: l' => match_atom nd a (match_seq nd l' k) s
  end.
End Matcher.

(** The text of group 1 when the pattern matches at the head of [s]. *)
Definition match_here (nd : char -> bool) (r : regex) (s : text)
  : option text :=
  match_seq nd (before r)
    (fun s1 =>
       match_seq nd (group1 r)
         (fun s2 =>
            match_seq nd (after r)
              (fun _ => Some (take (length s1 - length s2) s1))
              s2)
         s1)
    s.

(** The leftmost match, scanning the start positions from [i]. *)
Fixpoint search_from (nd : char -> bool) (r : regex) (i : nat) (s : text)
  : option re_match :=
  match match_here nd r s with
  | Some g => Some (Match i g)
  | None =>
      match s with
      | _ :: s' => search_from nd r (S i) s'
      | [] => None
      end
  end.

(** [re.search(pattern, s)]: [re.error] for a pattern outside the
    fragment, otherwise the leftmost match or [None]. *)
Definition search (nd : char -> bool) (pattern : string) (s : text)
  : result (option re_match) :=
  match re_compile pattern with
  | Some r => Ok (search_from nd r 0 s)
  | None => Raise (Exc ReError "bad pattern")
  end.

End Re.

(** ** Dictionaries *)

Abbreviation dict := (gmap string pyval).

(** [d.get(key, default)] *)
Definition dict_get (d : dict) (key : string) (dflt : pyval) : pyval :=
  default dflt (d !! key).

(** The dictionary literal every function of the module starts from. *)
Definition empty_info : dict :=
  list_to_map
    [("medicineName", VStr ""); ("price", VStr "");
     ("manufacturingDate", VStr ""); ("expiryDate", VStr "");
     ("batchNumber", VStr ""); ("quantity", VStr "")].

Definition info_fields : list string :=
  ["medicineName"; "price"; "manufacturingDate"; "expiryDate";
   "batchNumber"; "quantity"].

(** ** [parse_gs1_barcode] *)

(** The patterns are the texts of the raw string literals of the source,
    in the order of the dictionary literal. *)
Definition gs1_patterns : list (string * string) :=
  [("01(\d{14})", "gtin");
   ("17(\d{6})", "expiry");
   ("10([^\\x1D]+)", "batch");
   ("21([^\\x1D]+)", "serial");
   ("30(\d+)", "quantity")].

(** [f"{year}-{month}-{day}"] with [year = f"20{value[:2]}"]. *)
Definition format_expiry (value : text) : text :=
  let year := "20" +++ slice value 0 2 in
  let month := slice value 2 4 in
  let day := slice value 4 6 in
  year +++ "-" +++ month +++ "-" +++ day.

(** One iteration of the loop over [gs1_patterns.items()]. *)
Definition gs1_step (nd : char -> bool) (barcode_data : text)
           (medicine_info : dict) (item : string * string) : result dict :=
  let '(pattern, field) := item in
  rbind (Re.search nd pattern barcode_data) (fun m =>
    match m with
    | Some mt =>
        let value := Re.m_group1 mt in
        if String.eqb field "expiry" then
          if Nat.eqb (length value) 6
          then Ok (<["expiryDate" := VStr (format_expiry value)]> medicine_info)
          else Ok medicine_info
        else if String.eqb field "batch" then
          Ok (<["batchNumber" := VStr value]> medicine_info)
        else if String.eqb field "quantity" then
          Ok (<["quantity" := VStr value]> medicine_info)
        else if String.eqb field "gtin" then
          Ok medicine_info
        else Ok medicine_info
    | None => Ok medicine_info
    end).

Fixpoint for_each {A S : Type} (body : S -> A -> result S) (l : list A) (s : S)
  : result S :=
  match l with
  | [] => Ok s
  | x :: l' => rbind (body s x) (for_each body l')
  end.

Definition parse_gs1_barcode (nd : char -> bool) (barcode_data : text)
  : result dict :=
  for_each (gs1_step nd barcode_data) gs1_patterns empty_info.

(** ** [parse_code128_medicine_data] and [parse_datamatrix_medicine_data] *)

Definition parse_code128_medicine_data (nd : char -> bool) (barcode_data : text)
  : result dict :=
  let medicine_info := empty_info in
  if startswith barcode_data "01"
  then parse_gs1_barcode nd barcode_data
  else Ok medicine_info.

Definition parse_datamatrix_medicine_data (nd : char -> bool)
           (barcode_data : text) : result dict :=
  let medicine_info := empty_info in
  if startswith barcode_data "01"
  then parse_gs1_barcode nd barcode_data
  else Ok medicine_info.

(** ** The world the module runs in *)

Abbreviation bytes := (list Byte.byte).

(** The file system (path to contents), the process environment and what
    has been printed so far. *)
Record world : Type := World {
  files : gmap string bytes;
  environ : gmap string string;
  stdout : list string
}.

Definition with_files (f : gmap string bytes) (w : world) : world :=
  World f (environ w) (stdout w).

(** State is kept when an exception propagates. *)
Definition M (A : Type) : Type := world -> result A * world.

Definition ret {A} (a : A) : M A := fun w => (Ok a, w).

Definition raise {A} (e : exception) : M A := fun w => (Raise e, w).

Definition bind {A B} (m : M A) (f : A -> M B) : M B :=
  fun w =>
    match m w with
    | (Ok a, w') => f a w'
    | (Raise e, w') => (Raise e, w')
    end.

Definition lift {A} (r : result A) : M A := fun w => (r, w).

(** [try: body except Exception as e: handler e] *)
Definition try_except {A} (body : M A) (handler : exception -> M A) : M A :=
  fun w =>
    match body w with
    | (Ok a, w') => (Ok a, w')
    | (Raise e, w') => handler e w'
    end.

(** [if cond: stmt] *)
Definition when (cond : bool) (stmt : M unit) : M unit :=
  if cond then stmt else ret tt.

#[global] Instance M_ret : MRet M := @ret.
#[global] Instance M_bind : MBind M := fun A B f m => bind m f.

(** A decoded symbol of pyzbar: [.data] and [.type]. *)
Record symbol : Type := Symbol { sym_data : bytes; sym_type : text }.

(** The answer of an HTTP request: [.status_code] and [.json()]. *)
Record response : Type := Response {
  status_code : Z;
  json : result pyval
}.

(** What the module imports and calls but does not define. *)
Record capabilities : Type := Capabilities {
  image : Type;
  mat : Type;
  (** re: the decimal digits of the Unicode database beyond ASCII *)
  unicode_nd : char -> bool;
  (** PIL: [Image.open] on the contents of a file *)
  PIL_open : bytes -> result image;
  (** pyzbar: [pyzbar.decode] *)
  pyzbar_decode : image -> result (list symbol);
  (** OpenCV: [imread] gives [None] for a file it cannot read *)
  cv2_imdecode : bytes -> option mat;
  cv2_cvtColor : mat -> result mat;
  cv2_GaussianBlur : mat -> result mat;
  cv2_adaptiveThreshold : mat -> result mat;
  (** OpenCV: what [imwrite] stores under a path; [Ok None] when it
      reports failure by returning [False] *)
  cv2_imencode : string -> mat -> result (option bytes);
  (** [bytes.decode('utf-8')] *)
  utf8_decode : bytes -> result text;
  (** what [requests.get] would answer *)
  http_get : text -> list (string * string) -> result response
}.

(** The names bound at the top level of [utils.py]: its imports, [client]
    and its functions. *)
Definition module_globals : list string :=
  ["base64"; "json"; "re"; "NamedTemporaryFile"; "Together"; "load_dotenv";
   "os"; "pyzbar"; "Image"; "cv2"; "np"; "client";
   "encode_image"; "get_prompt_by_scan_type"; "parse_ai_response";
   "enhance_image_for_barcode"; "scan_barcode";
   "get_medicine_info_from_barcode"; "get_product_info_from_upc_database";
   "parse_code128_medicine_data"; "parse_datamatrix_medicine_data";
   "parse_gs1_barcode"].

(** Evaluating a global name that the module never binds raises
    [NameError]. *)
Definition load_global (name : string) : M unit :=
  if existsb (String.eqb name) module_globals
  then ret tt
  else raise (Exc NameError ("name '" +:+ name +:+ "' is not defined")).

Definition os_getenv (key : string) : M (option string) :=
  fun w => (Ok (environ w !! key), w).

Definition os_path_exists (path : string) : M bool :=
  fun w => (Ok (bool_decide (is_Some (files w !! path))), w).

(** [os.unlink] removes a file that is there and raises for one that is
    not. *)
Definition os_unlink (path : string) : M unit :=
  fun w =>
    match files w !! path with
    | Some _ => (Ok tt, with_files (delete path (files w)) w)
    | None => (Raise (Exc FileNotFoundError path), w)
    end.

Definition print (line : string) : M unit :=
  fun w => (Ok tt, World (files w) (environ w) (stdout w ++ [line])).

(** [d.get(key, default)] on a value: only dictionaries have [get]. *)
Definition py_get (v : pyval) (key : string) (dflt : pyval) : result pyval :=
  match v with
  | VDict d =>
      Ok (match List.find (fun kv => String.eqb (fst kv) key) d with
          | Some kv => snd kv
          | None => dflt
          end)
  | _ => Raise (Exc AttributeError "object has no attribute 'get'")
  end.

(** [v == 1] *)
Definition py_eq_one (v : pyval) : bool :=
  match v with
  | VInt 1 => true
  | VBool true => true
  | _ => false
  end.

(** [f"{v}"] of an optional string *)
Definition format_opt (v : option string) : string :=
  match v with
  | Some s => s
  | None => "None"
  end.

Section Pipeline.

Variable E : capabilities.

(** ** [get_product_info_from_upc_database] *)

Definition get_product_info_from_upc_database (barcode_data : text)
  : M dict :=
  let medicine_info := empty_info in
  try_except
    (api_key ← os_getenv "UPC_DATABASE_API_KEY";
     let headers :=
       [("Authorization", "Bearer " +:+ format_opt api_key);
        ("Accept", "application/json")] in
     let url :=
       "https://api.upcitemdb.com/prod/trial/lookup?upc=" +++ barcode_data in
     load_global "requests";;
     response ← lift (http_get E url headers);
     if Z.eqb (status_code response) 200 then
       data ← lift (json response);
       status ← lift (py_get data "status" VNone);
       if py_eq_one status then
         product ← lift (py_get data "product" (VDict []));
         name ← lift (py_get product "product_name" (VStr ""));
         ret (<["medicineName" := name]> medicine_info)
       else ret medicine_info
     else ret medicine_info)
    (fun e =>
       print ("Error fetching from UPC database: " +:+ exc_msg e);;
       ret medicine_info).

(** ** [get_medicine_info_from_barcode] *)

Definition get_medicine_info_from_barcode (barcode_data barcode_type : text)
  : M dict :=
  let medicine_info := empty_info in
  if existsb (text_eqb barcode_type)
       ["EAN13"%text; "EAN8"%text; "UPCA"%text; "UPCE"%text] then
    get_product_info_from_upc_database barcode_data
  else if text_eqb barcode_type "CODE128" then
    lift (parse_code128_medicine_data (unicode_nd E) barcode_data)
  else if text_eqb barcode_type "DATAMATRIX" then
    lift (parse_datamatrix_medicine_data (unicode_nd E) barcode_data)
  else ret medicine_info.

(** ** [enhance_image_for_barcode] *)

Definition cv2_imread (path : string) : M (option (mat E)) :=
  fun w => (Ok (files w !! path ≫= cv2_imdecode E), w).

Definition cv2_imwrite (path : string) (m : mat E) : M bool :=
  fun w =>
    match cv2_imencode E path m with
    | Ok (Some b) => (Ok true, with_files (<[path := b]> (files w)) w)
    | Ok None => (Ok false, w)
    | Raise e => (Raise e, w)
    end.

Definition enhance_image_for_barcode (image_path : string) : M string :=
  img ← cv2_imread image_path;
  gray ← match img with
          | Some m => lift (cv2_cvtColor E m)
          | None => raise (Exc (LibraryError "cv2.error") "empty image")
          end;
  blurred ← lift (cv2_GaussianBlur E gray);
  thresh ← lift (cv2_adaptiveThreshold E blurred);
  let enhanced_path := str_replace image_path ".jpg" "_enhanced.jpg" in
  cv2_imwrite enhanced_path thresh;;
  ret enhanced_path.

(** ** [scan_barcode] *)

Definition Image_open (path : string) : M (image E) :=
  fun w =>
    match files w !! path with
    | Some b => (PIL_open E b, w)
    | None => (Raise (Exc FileNotFoundError path), w)
    end.

(** The dictionary literal [scan_barcode] returns. *)
Definition assemble (medicine_info : dict) (barcode_data barcode_type : text)
  : dict :=
  list_to_map
    [("medicineName", dict_get medicine_info "medicineName" (VStr ""));
     ("price", dict_get medicine_info "price" (VStr ""));
     ("manufacturingDate", dict_get medicine_info "manufacturingDate" (VStr ""));
     ("expiryDate", dict_get medicine_info "expiryDate" (VStr ""));
     ("batchNumber", dict_get medicine_info "batchNumber" (VStr ""));
     ("quantity", dict_get medicine_info "quantity" (VStr ""));
     ("barcodeData", VStr barcode_data);
     ("barcodeType", VStr barcode_type)].

Definition is_empty {A} (l : list A) : bool :=
  match l with [] => true | _ => false end.

(** The body of [if not barcodes:], with the list it leaves in
    [barcodes]. *)
Definition retry_on_enhanced (image_path : string) : M (list symbol) :=
  enhanced_path ← enhance_image_for_barcode image_path;
  enhanced_image ← Image_open enhanced_path;
  barcodes ← lift (pyzbar_decode E enhanced_image);
  present ← os_path_exists enhanced_path;
  when present (os_unlink enhanced_path);;
  ret barcodes.

(** From [barcode = barcodes[0]] to the [return]. *)
Definition process_first (barcodes : list symbol) : M dict :=
  match barcodes with
  | barcode :: _ =>
      barcode_data ← lift (utf8_decode E (sym_data barcode));
      let barcode_type := sym_type barcode in
      medicine_info ←
        get_medicine_info_from_barcode barcode_data barcode_type;
      ret (assemble medicine_info barcode_data barcode_type)
  | [] => raise (Exc IndexError "list index out of range")
  end.

(** The [try] block. *)
Definition scan_body (image_path : string) : M dict :=
  image ← Image_open image_path;
  barcodes ← lift (pyzbar_decode E image);
  barcodes ←
    (if is_empty barcodes
     then retry_on_enhanced image_path
     else ret barcodes);
  when (is_empty barcodes)
    (raise (Exc ValueError "No barcode detected in the image"));;
  process_first barcodes.

Definition scan_barcode (image_path : string) : M dict :=
  try_except
    (scan_body image_path)
    (fun e =>
       raise (Exc ValueError ("Barcode scanning failed: " +:+ exc_msg e))).

End Pipeline.

(** ** [parse_ai_response] *)

(** [re.search(r'\{.*\}', text, re.DOTALL)]: an opening brace, any
    characters, as many as possible, and a closing brace.  With [re.DOTALL]
    the dot accepts every character. *)
Module Braces.

Definition any_char (c : char) : bool := true.

(** Zero or more characters of the class, then [k]: as many as possible
    first. *)
Definition match_star {R : Type} (p : char -> bool)
           (k : text -> option R) (s : text) : option R :=
  match Re.match_plus p k s with
  | Some r => Some r
  | None => k s
  end.

(** [group(0)] when the pattern matches at the head of [s]. *)
Definition match_here (s : text) : option text :=
  Re.match_times (N.eqb (code "{")) 1
    (match_star any_char
       (Re.match_times (N.eqb (code "}")) 1
          (fun rest => Some (take (length s - length rest) s))))
    s.

Fixpoint search (s : text) : option text :=
  match match_here s with
  | Some g => Some g
  | None =>
      match s with
      | _ :: s' => search s'
      | [] => None
      end
  end.

End Braces.

Definition is_JSONDecodeError (e : exception) : bool :=
  match exc_type e with
  | LibraryError name => String.eqb name "json.JSONDecodeError"
  | _ => false
  end.

Section AiResponse.

(** The values of [json.loads], and [json.loads] itself. *)
Variable json_value : Type.
Variable json_loads : text -> result json_value.

Definition parse_ai_response (output_text : text) : result json_value :=
  match json_loads output_text with
  | Ok result_json => Ok result_json
  | Raise e =>
      if is_JSONDecodeError e then
        match Braces.search output_text with
        | Some json_text => json_loads json_text
        | None => Raise (Exc ValueError "Failed to parse JSON response from AI")
        end
      else Raise e
  end.

End AiResponse.

(** ** [main.py]: the endpoints [/extract] and [/images/{image_id}] *)

Inductive ScanType : Type := IMAGE | BARCODE.

(** A streamed chunk: the [delta.content] of each of its choices. *)
Abbreviation chunk := (list (option text)).

(** What leaves an endpoint: a response, or an [HTTPException]. *)
Inductive outcome (A : Type) : Type :=
| Returned (a : A)
| HTTPException (status_code : Z) (detail : string).
Arguments Returned {A} a.
Arguments HTTPException {A} status_code detail.

Record json_response : Type :=
  JSONResponse { body : string; response_status : Z }.

(** What [main.py] imports and calls but does not define. *)
Record web : Type := Web {
  ai_value : Type;
  (** [json.loads] *)
  web_json_loads : text -> result ai_value;
  (** [base64.b64encode(...).decode("utf-8")] *)
  b64encode : bytes -> string;
  (** [client.chat.completions.create] and the iteration over its stream,
      from the prompt and the encoded image *)
  chat_stream : string -> string -> result (list chunk);
  (** the body [JSONResponse] renders from its content *)
  render : dict + ai_value -> result string
}.

Definition encode_image (W : web) (image_path : string) : M string :=
  fun w =>
    match files w !! image_path with
    | Some b => (Ok (b64encode W b), w)
    | None => (Raise (Exc FileNotFoundError image_path), w)
    end.

Definition newline : string := String "010" "".

Definition get_prompt_by_scan_type : string :=
  String.concat newline
    [""; "    You are a medicine info extractor:";
     "    Extract out the following in JSON format only:";
     "    - medicineName"; "    - price"; "    - manufacturingDate";
     "    - expiryDate"; "    - batchNumber"; "    - quantity";
     "    - extractedText";
     "    Do not give any false if it is not found in the given image.";
     "    Notes and other response also to be put in the JSON object only.";
     "    Return a valid JSON object that includes all these fields.";
     "    Only a JSON should be returned by you nothing else.";
     "    "].

(** [chunk.choices[0].delta.content or "" if chunk.choices else ""] *)
Definition chunk_part (c : chunk) : text :=
  match c with
  | Some content :: _ => content
  | None :: _ => ""
  | [] => ""
  end.

Section Extract.

Variable E : capabilities.
Variable W : web.

(** The [try] block of [extract_info]. *)
Definition extract_try (scan_type : ScanType) (image_path : string)
  : M json_response :=
  result_json ←
    match scan_type with
    | IMAGE =>
        base64_image ← encode_image W image_path;
        let prompt := get_prompt_by_scan_type in
        stream ← lift (chat_stream W prompt base64_image);
        let output_text :=
          fold_left (fun out c => out +++ chunk_part c) stream ""%text in
        result_json ← lift (parse_ai_response _ (web_json_loads W) output_text);
        ret (inr result_json)
    | BARCODE =>
        result_json ← scan_barcode E image_path;
        ret (inl result_json)
    end;
  os_unlink image_path;;
  content ← lift (render W result_json);
  ret (JSONResponse content 200).

(** [extract_info], for the bytes of the uploaded file and the name
    [NamedTemporaryFile(delete=False, suffix=".jpg")] gives its file,
    [tmp_stem] followed by the suffix. *)
Definition extract_info (scan_type : ScanType) (file : bytes) (tmp_stem : string)
  : world -> outcome json_response * world :=
  fun w =>
    let image_path := tmp_stem +:+ ".jpg" in
    let w0 := with_files (<[image_path := file]> (files w)) w in
    match extract_try scan_type image_path w0 with
    | (Ok response, w1) => (Returned response, w1)
    | (Raise e, w1) =>
        let w2 :=
          snd ((present ← os_path_exists image_path;
                when present (os_unlink image_path)) w1) in
        (HTTPException 500 (exc_msg e), w2)
    end.

End Extract.

(** The names bound at the top level of [main.py]. *)
Definition main_globals : list string :=
  ["FastAPI"; "UploadFile"; "Form"; "File"; "HTTPException"; "Annotated";
   "Optional"; "JSONResponse"; "CORSMiddleware"; "List"; "datetime"; "os";
   "base64"; "db"; "Medicine"; "ScanType"; "ExtractionResponse";
   "encode_image"; "get_prompt_by_scan_type"; "scan_barcode";
   "parse_ai_response"; "client"; "NamedTemporaryFile"; "uuid"; "ObjectId";
   "app"; "startup_db_client"; "shutdown_db_client"; "extract_info";
   "save_medicine_info"; "get_all_records"; "get_image"].

Definition load_name (globals : list string) (name : string) : result unit :=
  if existsb (String.eqb name) globals
  then Ok tt
  else Raise (Exc NameError ("name '" +:+ name +:+ "' is not defined")).

Record image_response (D : Type) : Type :=
  ImageResponse { content : D; media_type : string }.
Arguments ImageResponse {D} content media_type.

Section GetImage.

(** The values stored in a document, [db.collection.find_one({"_id": id})]
    and [str] of an [HTTPException]. *)
Variable D : Type.
Variable find_one : string -> result (option (gmap string D)).
Variable http_exception_str : Z -> string -> string.

(** [not record] *)
Definition falsy (record : option (gmap string D)) : bool :=
  match record with
  | None => true
  | Some d => Nat.eqb (size d) 0
  end.

(** ["image_data" not in record] *)
Definition lacks (key : string) (record : option (gmap string D)) : bool :=
  match record ≫= (fun d => d !! key) with
  | Some _ => false
  | None => true
  end.

Definition get_image (image_id : string) : outcome (image_response D) :=
  let attempt : result (image_response D) :=
    rbind (find_one image_id) (fun record =>
    rbind (if falsy record || lacks "image_data" record
           then Raise (Exc (LibraryError "HTTPException")
                         (http_exception_str 404 "Image not found"))
           else Ok tt) (fun _ =>
    rbind (load_name main_globals "Response") (fun _ =>
    match record ≫= (fun d => d !! "image_data") with
    | Some data => Ok (ImageResponse data "image/jpeg")
    | None => Raise (Exc (LibraryError "KeyError") "'image_data'")
    end))) in
  match attempt with
  | Ok response => Returned response
  | Raise e => HTTPException 500 (exc_msg e)
  end.

End GetImage.

(** * Vocabulary of the statements *)

Import Re.

(** ** Runs of characters *)

Fixpoint take_while (p : char -> bool) (s : text) : text :=
  match s with
  | c :: s' => if p c then c :: take_while p s' else []
  | [] => []
  end.

Fixpoint drop_while (p : char -> bool) (s : text) : text :=
  match s with
  | c :: s' => if p c then drop_while p s' else s
  | [] => []
  end.

(** [stops p s]: [s] is empty or begins with a character outside [p]. *)
Definition stops (p : char -> bool) (s : text) : Prop :=
  match s with
  | [] => True
  | c :: _ => p c = false
  end.

(** ** The patterns of [gs1_patterns], as [re_compile] reads them *)

(** The two shapes of the GS1 patterns: a two-character identifier, then
    a group of exactly [n], or of one or more, characters of a class. *)
Definition ai_times (a b : char) (cl : char_class) (n : nat) : regex :=
  Regex [Atom (Literal a) Once; Atom (Literal b) Once] [Atom cl (Times n)] [].

Definition ai_plus (a b : char) (cl : char_class) : regex :=
  Regex [Atom (Literal a) Once; Atom (Literal b) Once] [Atom cl OneOrMore] [].

Definition backslash_x_1_D : list char :=
  [code "\"; code "x"; code "1"; code "D"].

(** A character the set of the batch pattern accepts. *)
Definition batch_char (c : char) : bool :=
  negb (existsb (N.eqb c) backslash_x_1_D).

Definition gtin_re : regex := ai_times (code "0") (code "1") Digit 14.
Definition expiry_re : regex := ai_times (code "1") (code "7") Digit 6.
Definition batch_re : regex :=
  ai_plus (code "1") (code "0") (NoneOf backslash_x_1_D).
Definition serial_re : regex :=
  ai_plus (code "2") (code "1") (NoneOf backslash_x_1_D).
Definition quantity_re : regex := ai_plus (code "3") (code "0") Digit.

(** What the loop of [parse_gs1_barcode] stores in each field. *)
Definition expiry_value (nd : char -> bool) (barcode_data : text) : text :=
  match search_from nd expiry_re 0 barcode_data with
  | Some m =>
      if Nat.eqb (length (m_group1 m)) 6
      then format_expiry (m_group1 m)
      else ""
  | None => ""
  end.

Definition batch_value (nd : char -> bool) (barcode_data : text) : text :=
  match search_from nd batch_re 0 barcode_data with
  | Some m => m_group1 m
  | None => ""
  end.

Definition quantity_value (nd : char -> bool) (barcode_data : text) : text :=
  match search_from nd quantity_re 0 barcode_data with
  | Some m => m_group1 m
  | None => ""
  end.

Definition gs1_record (expiry batch quantity : text) : dict :=
  list_to_map
    [("medicineName", VStr ""); ("price", VStr "");
     ("manufacturingDate", VStr ""); ("expiryDate", VStr expiry);
     ("batchNumber", VStr batch); ("quantity", VStr quantity)].

(** The group separator, U+001D. *)
Definition GS : char := 29%N.

(** The reading of the quantity that looks for the leftmost ["30"] alone,
    whatever follows it. *)
Definition run_after_leftmost_30 (nd : char -> bool) (payload q : text) : Prop :=
  exists pre post,
    payload = pre +++ "30" +++ q +++ post /\
    forallb (is_decimal nd) q = true /\ stops (is_decimal nd) post /\
    (forall pre' post',
       payload = pre' +++ "30" +++ post' ->
       length pre <= length pre').

(** A Unicode database that knows no digit beyond ASCII, and one that
    knows the Arabic-Indic digits U+0660 to U+0669. *)
Definition ascii_only (c : char) : bool := false.

Definition arabic_indic (c : char) : bool := N.leb 0x660 c && N.leb c 0x669.

(** ** Outcomes of the dispatcher and of [scan_barcode] *)

Definition requests_error : string :=
  "Error fetching from UPC database: name 'requests' is not defined".

Definition known_symbologies : list text :=
  ["EAN13"%text; "EAN8"%text; "UPCA"%text; "UPCE"%text; "CODE128"%text;
   "DATAMATRIX"%text].

(** [ScanFailed(reason)]: what the handler of [scan_barcode] raises. *)
Definition ScanFailed (reason : string) : exception :=
  Exc ValueError ("Barcode scanning failed: " +:+ reason).

(** ** A concrete instance of the libraries *)

Definition photo : bytes := [Byte.x50].

Definition thresholded : bytes := [Byte.x54].

(** The codec on ASCII bytes, where a character is its byte. *)
Definition decode_ascii (b : bytes) : result text :=
  if forallb (fun x => N.ltb (Byte.to_N x) 128) b
  then Ok (map Byte.to_N b)
  else Raise (Exc UnicodeDecodeError "'utf-8' codec can't decode byte").

(** An image is the contents of its file; the decoder answers [on_photo]
    on [photo] and [on_enhanced] on any other image; enhancing an image
    gives [thresholded]. *)
Definition bench (on_photo on_enhanced : result (list symbol)) : capabilities :=
  {| image := bytes;
     mat := bytes;
     unicode_nd := arabic_indic;
     PIL_open := Ok;
     pyzbar_decode := fun img =>
       match img with
       | [Byte.x50] => on_photo
       | _ => on_enhanced
       end;
     cv2_imdecode := Some;
     cv2_cvtColor := Ok;
     cv2_GaussianBlur := Ok;
     cv2_adaptiveThreshold := fun _ => Ok thresholded;
     cv2_imencode := fun _ m => Ok (Some m);
     utf8_decode := decode_ascii;
     http_get := fun _ _ => Raise (Exc (LibraryError "ConnectionError") "no network") |}.

Definition upload : world := World {["scan.jpg" := photo]} ∅ [].

(** [upload] once the bench has written the enhanced image. *)
Definition enhanced_upload : world :=
  with_files (<["scan_enhanced.jpg" := thresholded]> (files upload)) upload.

Definition code128_symbol : symbol :=
  Symbol (list_byte_of_string "0112345678901231172406151012345678") "CODE128".

Definition zbar_failure : exception :=
  Exc (LibraryError "PyZbarError") "zbar could not scan the image".

(** ** Occurrences and single characters *)

(** [sub] occurs somewhere in the path [s]. *)
Definition occurs (sub s : string) : Prop :=
  exists pre post, s = pre +:+ sub +:+ post.

(** The character [c] does not occur in [s]. *)
Definition without (c : char) (s : text) : Prop :=
  forallb (fun x => negb (N.eqb x c)) s = true.

(** What follows the last closing brace of [s]. *)
Fixpoint after_last_close (s : text) : option text :=
  match s with
  | [] => None
  | c :: s' =>
      match after_last_close s' with
      | Some post => Some post
      | None => if N.eqb (code "}") c then Some s' else None
      end
  end.

(** The path [enhance_image_for_barcode] writes to. *)
Definition enhanced_path_of (image_path : string) : string :=
  str_replace image_path ".jpg" "_enhanced.jpg".

(** [m] changes no file other than the one at [path]. *)
Definition touches_only {A : Type} (path : string) (m : M A) : Prop :=
  forall w p, p <> path -> files (snd (m w)) !! p = files w !! p.

(** A [json.loads] that accepts the empty object only. *)
Definition loads_empty_object (s : text) : result pyval :=
  if text_eqb s "{}"
  then Ok (VDict [])
  else Raise (Exc (LibraryError "json.JSONDecodeError") "Expecting value").

(** A small instance of what [main.py] calls: the model answers in one
    chunk, and every content is rendered as the same body. *)
Definition desk : web :=
  {| ai_value := pyval;
     web_json_loads := loads_empty_object;
     b64encode := fun _ => "UA==";
     chat_stream := fun _ _ => Ok [[Some "{}"%text]];
     render := fun _ => Ok "{...}" |}.

(** A collection with one stored image, under the id ["42"]. *)
Definition one_image (image_id : string)
  : result (option (gmap string string)) :=
  if String.eqb image_id "42"
  then Ok (Some {["_id" := "42"; "image_data" := "UA=="]})
  else Ok None.

(** * Properties *)

(** ** Strings and texts *)

Section StringFacts.
Implicit Types (s t u : string) (c : ascii).

Lemma str_app_cons c s t : String c s +:+ t = String c (s +:+ t).
Proof. reflexivity. Qed.

Lemma str_app_nil_l s : "" +:+ s = s.
Proof. reflexivity. Qed.

Lemma str_app_nil_r s : s +:+ "" = s.
Proof. induction s as [|c s IH]; [reflexivity|]. by rewrite str_app_cons, IH. Qed.

Lemma str_app_assoc s t u : (s +:+ t) +:+ u = s +:+ t +:+ u.
Proof.
  induction s as [|c s IH]; [reflexivity|].
  by rewrite !str_app_cons, IH.
Qed.

Lemma str_length_app s t :
  String.length (s +:+ t) = String.length s + String.length t.
Proof.
  induction s as [|c s IH]; [reflexivity|].
  rewrite str_app_cons. simpl. by rewrite IH.
Qed.
End StringFacts.

Section TextFacts.
Implicit Types (s t u g : text) (c : char) (p : char -> bool).

Lemma take_length_app s t : take (length s) (s ++ t) = s.
Proof. induction s as [|c s IH]; [by destruct t|]. simpl. by rewrite IH. Qed.

Lemma take_group s t : take (length (s ++ t) - length t) (s ++ t) = s.
Proof.
  rewrite length_app.
  replace (length s + length t - length t) with (length s) by lia.
  apply take_length_app.
Qed.

Lemma text_length_zero s : length s = 0 -> s = [].
Proof. by destruct s. Qed.

Lemma take_drop_while p s : take_while p s ++ drop_while p s = s.
Proof.
  induction s as [|c s IH]; [reflexivity|].
  simpl. destruct (p c); [|reflexivity]. simpl. by rewrite IH.
Qed.

Lemma take_while_forallb p s : forallb p (take_while p s) = true.
Proof.
  induction s as [|c s IH]; [reflexivity|].
  simpl. destruct (p c) eqn:Hc; [|reflexivity].
  simpl. by rewrite Hc, IH.
Qed.

Lemma drop_while_stops p s : stops p (drop_while p s).
Proof.
  induction s as [|c s IH]; [exact I|].
  simpl. destruct (p c) eqn:Hc; [exact IH|exact Hc].
Qed.

(** The run [take_while] returns is the only maximal one. *)
Lemma take_while_unique p g t :
  forallb p g = true -> stops p t -> take_while p (g ++ t) = g.
Proof.
  induction g as [|c g IH]; intros Hg Ht.
  - destruct t as [|c t]; [reflexivity|]. simpl in *. by rewrite Ht.
  - simpl in *. apply andb_true_iff in Hg as [-> Hg]. by rewrite IH.
Qed.

Lemma take_take_while p s :
  take (length s - length (drop_while p s)) s = take_while p s.
Proof.
  pose proof (take_drop_while p s) as H.
  remember (take_while p s) as g. remember (drop_while p s) as d.
  rewrite <- H. apply take_group.
Qed.

Lemma text_app_inv_length s t s' t' :
  s ++ t = s' ++ t' -> length s = length s' -> s = s' /\ t = t'.
Proof.
  revert s'. induction s as [|c s IH]; intros [|c' s'] H Hl; try discriminate.
  - done.
  - simpl in H. injection H as -> H. simpl in Hl.
    destruct (IH s' H) as [-> ->]; [lia|done].
Qed.

Lemma text_eqb_eq s t : text_eqb s t = true <-> s = t.
Proof.
  revert t. induction s as [|c s IH]; intros [|d t]; simpl; try done.
  rewrite andb_true_iff, N.eqb_eq, IH. split.
  - by intros [-> ->].
  - by intros [= -> ->].
Qed.

Lemma text_eqb_neq s t : s <> t -> text_eqb s t = false.
Proof.
  intros Hne. destruct (text_eqb s t) eqn:H; [|done].
  by apply text_eqb_eq in H.
Qed.
End TextFacts.

(** ** The matcher *)

Module ReFacts.

Lemma match_times_Some {R} p n (k : text -> option R) s r :
  match_times p n k s = Some r <->
  exists g rest, s = g ++ rest /\ length g = n /\
                 forallb p g = true /\ k rest = Some r.
Proof.
  revert s. induction n as [|n IH]; intros s; simpl.
  - split.
    + intros H. by exists [], s.
    + intros (g & rest & -> & Hl & _ & Hk).
      by rewrite (text_length_zero _ Hl).
  - destruct s as [|c s].
    + split; [discriminate|].
      intros (g & rest & Hs & Hl & _). destruct g; discriminate.
    + destruct (p c) eqn:Hc.
      * rewrite IH. split.
        -- intros (g & rest & -> & Hl & Hg & Hk).
           exists (c :: g), rest. simpl. rewrite Hc, Hg, Hl. done.
        -- intros (g & rest & Hs & Hl & Hg & Hk).
           destruct g as [|c' g]; [discriminate|].
           simpl in Hs. injection Hs as <- ->.
           simpl in Hl, Hg. apply andb_true_iff in Hg as [_ Hg].
           exists g, rest. split_and!; [done|lia|done|done].
      * split; [discriminate|].
        intros (g & rest & Hs & Hl & Hg & _).
        destruct g as [|c' g]; [discriminate|].
        simpl in Hs. injection Hs as <- ->.
        simpl in Hg. rewrite Hc in Hg. discriminate.
Qed.

(** With a continuation that never fails nothing is given back: the
    group is the longest run. *)
Lemma match_plus_total {R} p (f : text -> R) s :
  match_plus p (fun t => Some (f t)) s =
  match s with
  | c :: s' => if p c then Some (f (drop_while p s')) else None
  | [] => None
  end.
Proof.
  induction s as [|c s IH]; [reflexivity|].
  simpl. destruct (p c); [|reflexivity].
  rewrite IH. destruct s as [|c' s]; [reflexivity|].
  simpl. by destruct (p c').
Qed.

Section Shapes.
Variable nd : char -> bool.
Variables (a b : char) (cl : char_class).

Lemma match_here_times n s g :
  match_here nd (ai_times a b cl n) s = Some g <->
  exists post, s = a :: b :: g ++ post /\
               length g = n /\ forallb (accepts nd cl) g = true.
Proof.
  unfold match_here, ai_times. simpl. unfold match_atom. simpl.
  destruct s as [|a' [|b' s]].
  - split; [discriminate|]. by intros (? & ? & _).
  - destruct (N.eqb a a'); split; try discriminate; by intros (? & ? & _).
  - destruct (N.eqb a a') eqn:Ha.
    + apply N.eqb_eq in Ha as <-.
      destruct (N.eqb b b') eqn:Hb.
      * apply N.eqb_eq in Hb as <-.
        rewrite match_times_Some. split.
        -- intros (g' & rest & -> & Hl & Hg & Hk).
           injection Hk as <-. rewrite take_group. by exists rest.
        -- intros (post & Hs & Hl & Hg). injection Hs as ->.
           exists g, post. split_and!; try done.
           by rewrite take_group.
      * split; [discriminate|]. intros (post & Hs & _).
        injection Hs as <- _. by rewrite N.eqb_refl in Hb.
    + split; [discriminate|]. intros (post & Hs & _).
      injection Hs as <- _ _. by rewrite N.eqb_refl in Ha.
Qed.

Lemma match_here_plus s g :
  match_here nd (ai_plus a b cl) s = Some g <->
  exists rest, s = a :: b :: rest /\
               g = take_while (accepts nd cl) rest /\ g <> [].
Proof.
  unfold match_here, ai_plus. simpl. unfold match_atom. simpl.
  destruct s as [|a' [|b' s]].
  - split; [discriminate|]. by intros (? & ? & _).
  - destruct (N.eqb a a'); split; try discriminate; by intros (? & ? & _).
  - destruct (N.eqb a a') eqn:Ha.
    + apply N.eqb_eq in Ha as <-.
      destruct (N.eqb b b') eqn:Hb.
      * apply N.eqb_eq in Hb as <-.
        rewrite (match_plus_total (accepts nd cl)
                   (fun t => take (length s - length t) s)).
        destruct s as [|c s].
        -- split; [discriminate|]. intros (rest & Hs & -> & Hne).
           injection Hs as <-. by destruct Hne.
        -- destruct (accepts nd cl c) eqn:Hc.
           ++ assert (Hd : drop_while (accepts nd cl) (c :: s)
                           = drop_while (accepts nd cl) s)
                by (simpl; by rewrite Hc).
              rewrite <- Hd. rewrite take_take_while. split.
              ** intros [= <-]. exists (c :: s). split_and!; try done.
                 simpl. by rewrite Hc.
              ** intros (rest & Hs & -> & _). by injection Hs as <-.
           ++ split; [discriminate|]. intros (rest & Hs & -> & Hne).
              injection Hs as <-. simpl in Hne. rewrite Hc in Hne. by destruct Hne.
      * split; [discriminate|]. intros (rest & Hs & _).
        injection Hs as <- _. by rewrite N.eqb_refl in Hb.
    + split; [discriminate|]. intros (rest & Hs & _).
      injection Hs as <- _ _. by rewrite N.eqb_refl in Ha.
Qed.

End Shapes.

(** [search_from] returns the leftmost start position at which the
    pattern matches. *)
Lemma search_from_Some nd r i s m :
  search_from nd r i s = Some m <->
  exists pre rest,
    s = pre ++ rest /\ m_start m = i + length pre /\
    match_here nd r rest = Some (m_group1 m) /\
    (forall pre' rest', s = pre' ++ rest' ->
       length pre' < length pre -> match_here nd r rest' = None).
Proof.
  revert i. induction s as [|c s IH]; intros i; simpl.
  - destruct (match_here nd r []) as [g|] eqn:Hm.
    + split.
      * intros [= <-]. exists [], []. simpl.
        split_and!; [done|lia|done|]. intros ? ? _ Hlt. simpl in Hlt. lia.
      * intros (pre & rest & Hs & Hi & Hg & _).
        destruct pre; [|discriminate]. simpl in Hs. subst rest.
        rewrite Hm in Hg. injection Hg as ->. simpl in Hi.
        destruct m as [st gr]. simpl in *. subst st. by rewrite Nat.add_0_r.
    + split; [discriminate|].
      intros (pre & rest & Hs & _ & Hg & _).
      destruct pre; [|discriminate]. simpl in Hs. subst rest.
      congruence.
  - destruct (match_here nd r (c :: s)) as [g|] eqn:Hm.
    + split.
      * intros [= <-]. exists [], (c :: s). simpl.
        split_and!; [done|lia|done|]. intros ? ? _ Hlt. simpl in Hlt. lia.
      * intros (pre & rest & Hs & Hi & Hg & Hmin).
        destruct pre as [|c' pre].
        -- simpl in Hs. subst rest.
           rewrite Hm in Hg. injection Hg as ->. simpl in Hi.
           destruct m as [st gr]. simpl in *. subst st. by rewrite Nat.add_0_r.
        -- specialize (Hmin [] (c :: s) eq_refl). simpl in Hmin.
           rewrite Hm in Hmin. discriminate Hmin. lia.
    + rewrite IH. split.
      * intros (pre & rest & -> & Hi & Hg & Hmin).
        exists (c :: pre), rest. simpl.
        split_and!; [done|lia|done|].
        intros pre' rest' Hs Hlt. destruct pre' as [|c' pre'].
        -- simpl in Hs. by subst rest'.
        -- simpl in Hs. injection Hs as <- Hs.
           apply (Hmin pre' rest' Hs). simpl in Hlt. lia.
      * intros (pre & rest & Hs & Hi & Hg & Hmin).
        destruct pre as [|c' pre].
        -- simpl in Hs. subst rest. congruence.
        -- simpl in Hs. injection Hs as <- ->.
           exists pre, rest. simpl in Hi.
           split_and!; [done|lia|done|].
           intros pre' rest' Hs Hlt.
           apply (Hmin (c :: pre') rest'); [by rewrite Hs|simpl; lia].
Qed.

Lemma search_from_None nd r i s :
  search_from nd r i s = None <->
  forall pre rest, s = pre ++ rest -> match_here nd r rest = None.
Proof.
  revert i. induction s as [|c s IH]; intros i; simpl.
  - destruct (match_here nd r []) as [g|] eqn:Hm.
    + split; [discriminate|]. intros H.
      specialize (H [] [] eq_refl). congruence.
    + split; [|done]. intros _ pre rest Hs.
      destruct pre; [|discriminate]. simpl in Hs. by subst.
  - destruct (match_here nd r (c :: s)) as [g|] eqn:Hm.
    + split; [discriminate|]. intros H.
      specialize (H [] (c :: s) eq_refl). congruence.
    + rewrite IH. split.
      * intros H pre rest Hs. destruct pre as [|c' pre].
        -- simpl in Hs. by subst.
        -- simpl in Hs. injection Hs as <- Hs. by eapply H.
      * intros H pre rest ->. by apply (H (c :: pre) rest).
Qed.

End ReFacts.

(** ** The GS1 patterns, compiled *)

Import ReFacts.

Lemma compile_gtin : re_compile "01(\d{14})" = Some gtin_re.
Proof. reflexivity. Qed.

Lemma compile_expiry : re_compile "17(\d{6})" = Some expiry_re.
Proof. reflexivity. Qed.

(** The set of the batch pattern is read as the four characters backslash,
    [x], [1] and [D]: in the raw string literal the backslash of [\x1D] is
    itself escaped. *)
Lemma compile_batch : re_compile "10([^\\x1D]+)" = Some batch_re.
Proof. reflexivity. Qed.

Lemma compile_serial : re_compile "21([^\\x1D]+)" = Some serial_re.
Proof. reflexivity. Qed.

Lemma compile_quantity : re_compile "30(\d+)" = Some quantity_re.
Proof. reflexivity. Qed.

Lemma gs1_record_empty : gs1_record "" "" "" = empty_info.
Proof. reflexivity. Qed.

(** Storing a field in the record: the new binding moves past the
    bindings of the other keys and replaces the one of its own key. *)
Ltac past_key k k' := rewrite (insert_insert_ne _ k k') by discriminate.

Lemma gs1_record_expiry e e' b q :
  <["expiryDate" := VStr e']> (gs1_record e b q) = gs1_record e' b q.
Proof.
  unfold gs1_record. rewrite !list_to_map_cons. cbn [fst snd].
  past_key "expiryDate" "medicineName". past_key "expiryDate" "price".
  past_key "expiryDate" "manufacturingDate".
  by rewrite insert_insert_eq.
Qed.

Lemma gs1_record_batch e b b' q :
  <["batchNumber" := VStr b']> (gs1_record e b q) = gs1_record e b' q.
Proof.
  unfold gs1_record. rewrite !list_to_map_cons. cbn [fst snd].
  past_key "batchNumber" "medicineName". past_key "batchNumber" "price".
  past_key "batchNumber" "manufacturingDate".
  past_key "batchNumber" "expiryDate".
  by rewrite insert_insert_eq.
Qed.

Lemma gs1_record_quantity e b q q' :
  <["quantity" := VStr q']> (gs1_record e b q) = gs1_record e b q'.
Proof.
  unfold gs1_record. rewrite !list_to_map_cons. cbn [fst snd].
  past_key "quantity" "medicineName". past_key "quantity" "price".
  past_key "quantity" "manufacturingDate". past_key "quantity" "expiryDate".
  past_key "quantity" "batchNumber".
  by rewrite insert_insert_eq.
Qed.

Section Gs1Steps.
Variable nd : char -> bool.
Implicit Types (s e b q : text).

Lemma gs1_step_gtin s info : gs1_step nd s info ("01(\d{14})", "gtin") = Ok info.
Proof.
  unfold gs1_step, search. rewrite compile_gtin. cbn [rbind].
  by destruct (search_from nd gtin_re 0 s).
Qed.

Lemma gs1_step_serial s info :
  gs1_step nd s info ("21([^\\x1D]+)", "serial") = Ok info.
Proof.
  unfold gs1_step, search. rewrite compile_serial. cbn [rbind].
  by destruct (search_from nd serial_re 0 s).
Qed.

Lemma gs1_step_expiry s e b q :
  gs1_step nd s (gs1_record e b q) ("17(\d{6})", "expiry")
  = Ok (gs1_record
          (match search_from nd expiry_re 0 s with
           | Some m =>
               if Nat.eqb (length (m_group1 m)) 6
               then format_expiry (m_group1 m) else e
           | None => e
           end) b q).
Proof.
  unfold gs1_step, search. rewrite compile_expiry. cbn [rbind].
  destruct (search_from nd expiry_re 0 s) as [m|]; [|reflexivity].
  change (String.eqb "expiry" "expiry") with true. cbv iota.
  destruct (Nat.eqb (length (m_group1 m)) 6); [|reflexivity].
  by rewrite gs1_record_expiry.
Qed.

Lemma gs1_step_batch s e b q :
  gs1_step nd s (gs1_record e b q) ("10([^\\x1D]+)", "batch")
  = Ok (gs1_record e
          (match search_from nd batch_re 0 s with
           | Some m => m_group1 m
           | None => b
           end) q).
Proof.
  unfold gs1_step, search. rewrite compile_batch. cbn [rbind].
  destruct (search_from nd batch_re 0 s) as [m|]; [|reflexivity].
  change (String.eqb "batch" "expiry") with false.
  change (String.eqb "batch" "batch") with true. cbv iota.
  by rewrite gs1_record_batch.
Qed.

Lemma gs1_step_quantity s e b q :
  gs1_step nd s (gs1_record e b q) ("30(\d+)", "quantity")
  = Ok (gs1_record e b
          (match search_from nd quantity_re 0 s with
           | Some m => m_group1 m
           | None => q
           end)).
Proof.
  unfold gs1_step, search. rewrite compile_quantity. cbn [rbind].
  destruct (search_from nd quantity_re 0 s) as [m|]; [|reflexivity].
  change (String.eqb "quantity" "expiry") with false.
  change (String.eqb "quantity" "batch") with false.
  change (String.eqb "quantity" "quantity") with true. cbv iota.
  by rewrite gs1_record_quantity.
Qed.

(** [parse_gs1_barcode] never raises, and its record is the all-empty one
    with the three parsed fields filled in. *)
Lemma parse_gs1_barcode_eq s :
  parse_gs1_barcode nd s
  = Ok (gs1_record (expiry_value nd s) (batch_value nd s) (quantity_value nd s)).
Proof.
  unfold parse_gs1_barcode, gs1_patterns. rewrite <- gs1_record_empty.
  cbn [for_each]. rewrite gs1_step_gtin. cbn [rbind].
  rewrite gs1_step_expiry. cbn [rbind].
  rewrite gs1_step_batch. cbn [rbind].
  rewrite gs1_step_serial. cbn [rbind].
  rewrite gs1_step_quantity. cbn [rbind].
  reflexivity.
Qed.

End Gs1Steps.

Lemma gs1_record_lookup e b q :
  gs1_record e b q !! "medicineName" = Some (VStr "") /\
  gs1_record e b q !! "price" = Some (VStr "") /\
  gs1_record e b q !! "manufacturingDate" = Some (VStr "") /\
  gs1_record e b q !! "expiryDate" = Some (VStr e) /\
  gs1_record e b q !! "batchNumber" = Some (VStr b) /\
  gs1_record e b q !! "quantity" = Some (VStr q).
Proof. vm_compute. done. Qed.

Lemma gs1_record_keys e b q k :
  is_Some (gs1_record e b q !! k) <-> In k info_fields.
Proof.
  unfold gs1_record, info_fields.
  rewrite <- list_elem_of_In, <- elem_of_dom, dom_list_to_map_L.
  cbn [fmap list_fmap fst]. set_solver.
Qed.

(** ** Where the matches of the two pattern shapes lie *)

Section Occurrences.
Variable nd : char -> bool.
Variables (a b : char) (cl : char_class).

Lemma search_times_Some n s m :
  search_from nd (ai_times a b cl n) 0 s = Some m ->
  exists pre post,
    s = pre ++ a :: b :: m_group1 m ++ post /\
    m_start m = length pre /\
    length (m_group1 m) = n /\
    forallb (accepts nd cl) (m_group1 m) = true /\
    (forall pre' d' post',
       s = pre' ++ a :: b :: d' ++ post' ->
       length d' = n -> forallb (accepts nd cl) d' = true ->
       length pre <= length pre').
Proof.
  intros (pre & rest & -> & Hi & Hg & Hmin)%search_from_Some.
  apply match_here_times in Hg as (post & -> & Hl & Hd).
  exists pre, post. split_and!; try done.
  intros pre' d' post' Hs Hl' Hd'.
  destruct (le_lt_dec (length pre) (length pre')) as [|Hlt];
    [done|exfalso].
  specialize (Hmin _ _ Hs Hlt).
  assert (match_here nd (ai_times a b cl n) (a :: b :: d' ++ post')
          = Some d') as Hm by (apply match_here_times; eauto).
  congruence.
Qed.

Lemma search_times_None n s :
  search_from nd (ai_times a b cl n) 0 s = None ->
  forall pre d post,
    s = pre ++ a :: b :: d ++ post ->
    length d = n -> forallb (accepts nd cl) d = true -> False.
Proof.
  intros Hnone pre d post Hs Hl Hd.
  rewrite search_from_None in Hnone. specialize (Hnone _ _ Hs).
  assert (match_here nd (ai_times a b cl n) (a :: b :: d ++ post)
          = Some d) as Hm by (apply match_here_times; eauto).
  congruence.
Qed.

Lemma search_plus_Some s m :
  search_from nd (ai_plus a b cl) 0 s = Some m ->
  exists pre post,
    s = pre ++ a :: b :: m_group1 m ++ post /\
    m_start m = length pre /\
    m_group1 m <> [] /\
    forallb (accepts nd cl) (m_group1 m) = true /\
    stops (accepts nd cl) post /\
    (forall pre' c rest',
       s = pre' ++ a :: b :: c :: rest' ->
       accepts nd cl c = true ->
       length pre <= length pre').
Proof.
  intros (pre & rest & -> & Hi & Hg & Hmin)%search_from_Some.
  apply match_here_plus in Hg as (rest0 & -> & Hg & Hne).
  exists pre, (drop_while (accepts nd cl) rest0).
  rewrite Hg, take_drop_while. rewrite <- Hg.
  split_and!; try done.
  - rewrite Hg. apply take_while_forallb.
  - apply drop_while_stops.
  - intros pre' c rest' Hs Hc.
    destruct (le_lt_dec (length pre) (length pre')) as [|Hlt];
      [done|exfalso].
    specialize (Hmin _ _ Hs Hlt).
    assert (match_here nd (ai_plus a b cl) (a :: b :: c :: rest')
            = Some (take_while (accepts nd cl) (c :: rest'))) as Hm.
    { apply match_here_plus. eexists. split_and!; [done..|].
      simpl. by rewrite Hc. }
    congruence.
Qed.

Lemma search_plus_None s :
  search_from nd (ai_plus a b cl) 0 s = None ->
  forall pre c rest,
    s = pre ++ a :: b :: c :: rest -> accepts nd cl c = false.
Proof.
  intros Hnone pre c rest Hs.
  rewrite search_from_None in Hnone. specialize (Hnone _ _ Hs).
  destruct (accepts nd cl c) eqn:Hc; [exfalso|done].
  assert (match_here nd (ai_plus a b cl) (a :: b :: c :: rest)
          = Some (take_while (accepts nd cl) (c :: rest))) as Hm.
  { apply match_here_plus. eexists. split_and!; [done..|].
    simpl. by rewrite Hc. }
  congruence.
Qed.
End Occurrences.

(** Six characters are [YY], [MM] and [DD]. *)
Lemma six_digits p d :
  length d = 6 -> forallb p d = true ->
  exists yy mm dd,
    d = yy +++ mm +++ dd /\
    length yy = 2 /\ length mm = 2 /\ length dd = 2 /\
    forallb p yy = true /\ forallb p mm = true /\ forallb p dd = true /\
    format_expiry d = "20" +++ yy +++ "-" +++ mm +++ "-" +++ dd.
Proof.
  destruct d as [|c1 [|c2 [|c3 [|c4 [|c5 [|c6 [|]]]]]]]; try discriminate.
  intros _ Hd. simpl in Hd.
  repeat (apply andb_true_iff in Hd as [? Hd]).
  exists [c1; c2], [c3; c4], [c5; c6].
  split_and!; try reflexivity; simpl; by repeat (apply andb_true_iff; split).
Qed.

(** ** The fields of [parse_gs1_barcode] *)

Section Gs1Fields.
Variable nd : char -> bool.
Implicit Types (payload pre post d : text).

(** The expiry date is empty unless the payload holds ["17"] followed by
    six decimal digits, and then it is built from the leftmost such six
    digits. *)
Lemma expiry_value_cases payload :
  (expiry_value nd payload = ""%text /\
   forall pre d post,
     payload = pre +++ "17" +++ d +++ post ->
     length d = 6 -> forallb (is_decimal nd) d = true -> False)
  \/
  (exists pre d post,
     payload = pre +++ "17" +++ d +++ post /\
     length d = 6 /\ forallb (is_decimal nd) d = true /\
     expiry_value nd payload = format_expiry d /\
     forall pre' d' post',
       payload = pre' +++ "17" +++ d' +++ post' ->
       length d' = 6 -> forallb (is_decimal nd) d' = true ->
       length pre <= length pre').
Proof.
  unfold expiry_value.
  destruct (search_from nd expiry_re 0 payload) as [m|] eqn:Hs.
  - right. apply search_times_Some in Hs
      as (pre & post & Hp & _ & Hl & Hd & Hmin).
    exists pre, (m_group1 m), post. rewrite Hl. split_and!; try done.
  - left. split; [done|]. intros pre d post Hp Hl Hd.
    exact (search_times_None _ _ _ _ _ _ Hs pre d post Hp Hl Hd).
Qed.

(** The quantity is empty unless the payload holds ["30"] followed by a
    decimal digit, and then it is the whole run of decimal digits after
    the leftmost such ["30"]. *)
Lemma quantity_value_cases payload :
  (quantity_value nd payload = ""%text /\
   forall pre c rest,
     payload = pre +++ "30" +++ c :: rest -> is_decimal nd c = false)
  \/
  (exists pre post,
     payload = pre +++ "30" +++ quantity_value nd payload +++ post /\
     quantity_value nd payload <> ""%text /\
     forallb (is_decimal nd) (quantity_value nd payload) = true /\
     stops (is_decimal nd) post /\
     forall pre' c rest',
       payload = pre' +++ "30" +++ c :: rest' -> is_decimal nd c = true ->
       length pre <= length pre').
Proof.
  unfold quantity_value.
  destruct (search_from nd quantity_re 0 payload) as [m|] eqn:Hs.
  - right. apply search_plus_Some in Hs
      as (pre & post & Hp & _ & Hne & Hd & Hstop & Hmin).
    exists pre, post. split_and!; try done.
  - left. split; [done|]. intros pre c rest Hp.
    exact (search_plus_None _ _ _ _ _ Hs pre c rest Hp).
Qed.

(** The batch number as the code computes it: the run of characters other
    than backslash, [x], [1] and [D] after the leftmost ["10"] that such a
    character follows. *)
Lemma batch_value_cases payload :
  (batch_value nd payload = ""%text /\
   forall pre c rest,
     payload = pre +++ "10" +++ c :: rest -> batch_char c = false)
  \/
  (exists pre post,
     payload = pre +++ "10" +++ batch_value nd payload +++ post /\
     batch_value nd payload <> ""%text /\
     forallb batch_char (batch_value nd payload) = true /\
     stops batch_char post /\
     forall pre' c rest',
       payload = pre' +++ "10" +++ c :: rest' -> batch_char c = true ->
       length pre <= length pre').
Proof.
  unfold batch_value.
  destruct (search_from nd batch_re 0 payload) as [m|] eqn:Hs.
  - right. apply search_plus_Some in Hs
      as (pre & post & Hp & _ & Hne & Hd & Hstop & Hmin).
    exists pre, post. split_and!; try done.
  - left. split; [done|]. intros pre c rest Hp.
    exact (search_plus_None _ _ _ _ _ Hs pre c rest Hp).
Qed.

End Gs1Fields.

(** A record of [parse_gs1_barcode] on a given payload, from the values
    of its three fields. *)
Lemma gs1_record_ext e b q e' b' q' :
  e = e' -> b = b' -> q = q' ->
  Ok (gs1_record e b q) = Ok (gs1_record e' b' q').
Proof. by intros -> -> ->. Qed.

Ltac parsed_record :=
  rewrite parse_gs1_barcode_eq, <- ?gs1_record_empty;
  apply gs1_record_ext; vm_compute; reflexivity.

(** C4.  For every payload, and whatever decimal digits the Unicode
    database knows beyond ASCII, the expiry date of [parse_gs1_barcode] is
    the empty string or ["20YY-MM-DD"] for six decimal digits [YYMMDD]
    that follow ["17"] in the payload; without ["17"] followed by six
    decimal digits it is empty. *)
Theorem expiry_date_shape (nd : char -> bool) (payload : text) :
  exists info e,
    parse_gs1_barcode nd payload = Ok info /\
    info !! "expiryDate" = Some (VStr e) /\
    (e = ""%text \/
     exists pre yy mm dd post,
       payload = pre +++ "17" +++ yy +++ mm +++ dd +++ post /\
       length yy = 2 /\ length mm = 2 /\ length dd = 2 /\
       forallb (is_decimal nd) yy = true /\
       forallb (is_decimal nd) mm = true /\
       forallb (is_decimal nd) dd = true /\
       e = "20" +++ yy +++ "-" +++ mm +++ "-" +++ dd) /\
    ((forall pre d post,
        payload = pre +++ "17" +++ d +++ post ->
        length d = 6 -> forallb (is_decimal nd) d = true -> False) ->
     e = ""%text).
Proof.
  eexists _, (expiry_value nd payload).
  split; [apply parse_gs1_barcode_eq|].
  split; [apply gs1_record_lookup|].
  destruct (expiry_value_cases nd payload)
    as [[He Hno]|(pre & d & post & Hp & Hl & Hd & He & _)].
  - split; [by left|done].
  - split.
    + right. destruct (six_digits _ d Hl Hd)
        as (yy & mm & dd & -> & ? & ? & ? & ? & ? & ? & Hf).
      exists pre, yy, mm, dd, post. rewrite He, Hf.
      split_and!; try done.
      by rewrite Hp, <- !app_assoc.
    + intros Hno. exfalso. exact (Hno pre d post Hp Hl Hd).
Qed.

(** The digits [\d] accepts beyond ASCII reach the date as they are: with
    a database that knows the Arabic-Indic digits, ["17"] followed by
    U+0662 U+0664 U+0660 U+0666 U+0661 U+0665 gives a date made of them;
    with a database that does not, it gives none. *)
Example expiry_of_arabic_indic_digits :
  let payload := "17" +++ [0x662; 0x664; 0x660; 0x666; 0x661; 0x665]%N in
  parse_gs1_barcode arabic_indic payload
  = Ok (gs1_record
          ("20" +++ [0x662; 0x664]%N +++ "-" +++ [0x660; 0x666]%N
             +++ "-" +++ [0x661; 0x665]%N) "" "") /\
  parse_gs1_barcode ascii_only payload = Ok empty_info.
Proof. split; parsed_record. Qed.

(** C9.  For every payload, a non-empty expiry date of [parse_gs1_barcode]
    is built from the six decimal digits after the leftmost ["17"]
    followed by six decimal digits, wherever in the payload that is;
    inside a GTIN for one. *)
Theorem expiry_from_leftmost_17 :
  (forall nd payload,
     exists info e,
       parse_gs1_barcode nd payload = Ok info /\
       info !! "expiryDate" = Some (VStr e) /\
       (e <> ""%text ->
        exists pre d post,
          payload = pre +++ "17" +++ d +++ post /\
          length d = 6 /\ forallb (is_decimal nd) d = true /\
          e = format_expiry d /\
          forall pre' d' post',
            payload = pre' +++ "17" +++ d' +++ post' ->
            length d' = 6 -> forallb (is_decimal nd) d' = true ->
            length pre <= length pre'))
  /\
  (forall nd,
   exists info,
     parse_gs1_barcode nd "011724061500000017251231" = Ok info /\
     info !! "expiryDate" = Some (VStr "2024-06-15")).
Proof.
  split.
  - intros nd payload. eexists _, (expiry_value nd payload).
    split; [apply parse_gs1_barcode_eq|].
    split; [apply gs1_record_lookup|].
    intros Hne.
    destruct (expiry_value_cases nd payload) as [[He _]|H]; [done|].
    destruct H as (pre & d & post & Hp & Hl & Hd & He & Hmin).
    by exists pre, d, post.
  - intros nd. eexists. split; [apply parse_gs1_barcode_eq|].
    by vm_compute.
Qed.

(** C10, as stated, fails: in ["30A3012"] the leftmost ["30"] is followed
    by no digit, and the quantity is taken after the second one, whatever
    the Unicode database. *)
Lemma quantity_skips_30_without_digit :
  let payload := "30A3012"%text in
  (forall nd,
   exists info,
     parse_gs1_barcode nd payload = Ok info /\
     info !! "quantity" = Some (VStr "12")) /\
  "12"%text <> ""%text /\
  (forall nd, ~ run_after_leftmost_30 nd payload "12").
Proof.
  intros payload. split_and!.
  - intros nd. eexists. split; [apply parse_gs1_barcode_eq|]. by vm_compute.
  - discriminate.
  - intros nd (pre & post & Hp & _ & _ & Hmin).
    specialize (Hmin [] "A3012"%text eq_refl). simpl in Hmin.
    destruct pre; [discriminate Hp|simpl in Hmin; lia].
Qed.

(** C10, amended.  For every payload, a non-empty quantity of
    [parse_gs1_barcode] is the maximal run of decimal digits after the
    leftmost ["30"] that a decimal digit follows; such a ["30"] inside the
    GTIN takes every digit that follows it. *)
Theorem quantity_from_leftmost_30_digit :
  (forall nd payload,
     exists info q,
       parse_gs1_barcode nd payload = Ok info /\
       info !! "quantity" = Some (VStr q) /\
       (q <> ""%text ->
        exists pre post,
          payload = pre +++ "30" +++ q +++ post /\
          forallb (is_decimal nd) q = true /\ stops (is_decimal nd) post /\
          forall pre' c rest',
            payload = pre' +++ "30" +++ c :: rest' ->
            is_decimal nd c = true ->
            length pre <= length pre'))
  /\
  (forall nd,
   exists info,
     parse_gs1_barcode nd "0112345678901230172406151012" = Ok info /\
     info !! "quantity" = Some (VStr "172406151012")).
Proof.
  split.
  - intros nd payload. eexists _, (quantity_value nd payload).
    split; [apply parse_gs1_barcode_eq|].
    split; [apply gs1_record_lookup|].
    intros Hne.
    destruct (quantity_value_cases nd payload) as [[Hq _]|H]; [done|].
    destruct H as (pre & post & Hp & _ & Hd & Hstop & Hmin).
    by exists pre, post.
  - intros nd. eexists. split; [apply parse_gs1_barcode_eq|].
    by vm_compute.
Qed.

(** The quantity takes the decimal digits beyond ASCII too: with a
    database that knows the Arabic-Indic digits, ["30"] followed by
    U+0661 U+0662 gives these two characters. *)
Example quantity_of_arabic_indic_digits :
  parse_gs1_barcode arabic_indic ("30" +++ [0x661; 0x662]%N)
  = Ok (gs1_record "" "" [0x661; 0x662]%N).
Proof. parsed_record. Qed.

(** C2.  The batch pattern excludes backslash, [x], [1] and [D], not the
    separator: ["1017ABC123"] gets no batch number, and a batch runs past
    a separator up to the next [D]. *)
Theorem batch_pattern_excludes_1_not_GS :
  forall nd,
  parse_gs1_barcode nd "1017ABC123" = Ok empty_info /\
  (exists info,
     parse_gs1_barcode nd ("10AB" +++ GS :: "CD") = Ok info /\
     info !! "batchNumber" = Some (VStr ("AB" +++ GS :: "C"))).
Proof.
  intros nd. split.
  - parsed_record.
  - eexists. split; [apply parse_gs1_barcode_eq|]. by vm_compute.
Qed.

(** The pattern with a single backslash, whose set is the separator, finds
    the batch in both payloads. *)
Example batch_with_GS_pattern :
  forall nd,
  re_compile "10([^\x1D]+)"
  = Some (ai_plus (code "1") (code "0") (NoneOf [GS])) /\
  search nd "10([^\x1D]+)" "1017ABC123" = Ok (Some (Match 0 "17ABC123")) /\
  search nd "10([^\x1D]+)" "0112345678901231172406151012345678"
  = Ok (Some (Match 24 "12345678")).
Proof. intros nd. by vm_compute. Qed.

Example parse_gs1_expiry_only :
  forall nd,
  parse_gs1_barcode nd "17240615" = Ok (gs1_record "2024-06-15" "" "").
Proof. intros nd. parsed_record. Qed.

Example parse_gs1_gtin_only :
  forall nd,
  parse_gs1_barcode nd "0112345678901234" = Ok empty_info.
Proof. intros nd. parsed_record. Qed.

(** ** The monad *)

Section MonadFacts.
Context {A B : Type}.
Implicit Types (m : M A) (f : A -> M B) (w : world).

Lemma bind_Ok m f w a w1 : m w = (Ok a, w1) -> (m ≫= f) w = f a w1.
Proof. intros H. unfold mbind, M_bind, bind. by rewrite H. Qed.

Lemma bind_Ok_inv m f w b w' :
  (m ≫= f) w = (Ok b, w') ->
  exists a w1, m w = (Ok a, w1) /\ f a w1 = (Ok b, w').
Proof.
  unfold mbind, M_bind, bind. destruct (m w) as [[a|e] w1]; [eauto|discriminate].
Qed.

Lemma bind_lift_Ok (r : result A) f w a : r = Ok a -> (lift r ≫= f) w = f a w.
Proof. by intros ->. Qed.
End MonadFacts.

(** ** The dispatcher *)

Section PipelineFacts.
Variable E : capabilities.

(** [utils.py] never imports [requests]: the lookup stops at
    [requests.get] with a [NameError], which its own handler prints. *)
Lemma get_product_info_from_upc_database_eq barcode_data w :
  get_product_info_from_upc_database E barcode_data w
  = (Ok empty_info, World (files w) (environ w) (stdout w ++ [requests_error])).
Proof. reflexivity. Qed.

(** The two GS1 symbologies go through the same test on the payload. *)
Lemma parse_code128_medicine_data_eq nd barcode_data :
  parse_code128_medicine_data nd barcode_data
  = if startswith barcode_data "01"
    then parse_gs1_barcode nd barcode_data else Ok empty_info.
Proof. reflexivity. Qed.

Lemma parse_datamatrix_medicine_data_eq nd barcode_data :
  parse_datamatrix_medicine_data nd barcode_data
  = if startswith barcode_data "01"
    then parse_gs1_barcode nd barcode_data else Ok empty_info.
Proof. reflexivity. Qed.

(** Every path of the dispatcher returns a record of the shape of
    [gs1_record] and leaves the files alone; the three parsed fields are
    filled only on the GS1 path. *)
Lemma get_medicine_info_from_barcode_cases barcode_data barcode_type w :
  exists e b q w',
    get_medicine_info_from_barcode E barcode_data barcode_type w
    = (Ok (gs1_record e b q), w') /\
    files w' = files w /\
    ((e = ""%text /\ b = ""%text /\ q = ""%text) \/
     ((barcode_type = "CODE128"%text \/ barcode_type = "DATAMATRIX"%text) /\
      startswith barcode_data "01" = true /\
      e = expiry_value (unicode_nd E) barcode_data /\
      b = batch_value (unicode_nd E) barcode_data /\
      q = quantity_value (unicode_nd E) barcode_data)).
Proof.
  unfold get_medicine_info_from_barcode.
  destruct (existsb _ _).
  { rewrite get_product_info_from_upc_database_eq.
    exists ""%text, ""%text, ""%text. eexists. split_and!; [done..|by left]. }
  assert (Hgs1 : forall r,
            barcode_type = "CODE128"%text \/ barcode_type = "DATAMATRIX"%text ->
            r = (if startswith barcode_data "01"
                 then parse_gs1_barcode (unicode_nd E) barcode_data
                 else Ok empty_info) ->
            exists e b q w',
              lift r w = (Ok (gs1_record e b q), w') /\
              files w' = files w /\
              ((e = ""%text /\ b = ""%text /\ q = ""%text) \/
               ((barcode_type = "CODE128"%text \/
                 barcode_type = "DATAMATRIX"%text) /\
                startswith barcode_data "01" = true /\
                e = expiry_value (unicode_nd E) barcode_data /\
                b = batch_value (unicode_nd E) barcode_data /\
                q = quantity_value (unicode_nd E) barcode_data))).
  { intros r Hty ->. destruct (startswith barcode_data "01") eqn:H01.
    - rewrite parse_gs1_barcode_eq. eexists _, _, _, w.
      split_and!; [done..|]. right. by split_and!.
    - exists ""%text, ""%text, ""%text, w. split_and!; [done..|by left]. }
  destruct (text_eqb barcode_type "CODE128") eqn:Hc.
  { apply Hgs1; [left; by apply text_eqb_eq|].
    apply parse_code128_medicine_data_eq. }
  destruct (text_eqb barcode_type "DATAMATRIX") eqn:Hd.
  { apply Hgs1; [right; by apply text_eqb_eq|].
    apply parse_datamatrix_medicine_data_eq. }
  exists ""%text, ""%text, ""%text, w. split_and!; [done..|by left].
Qed.

End PipelineFacts.

(** C6.  For CODE128 and for DATAMATRIX the dispatcher returns what
    [parse_gs1_barcode] returns when the payload starts with ["01"], and the
    all-empty record otherwise. *)
Theorem gs1_dispatch_on_01 (E : capabilities) (payload symbology : text) (w : world) :
  symbology = "CODE128"%text \/ symbology = "DATAMATRIX"%text ->
  get_medicine_info_from_barcode E payload symbology w
  = (if startswith payload "01"
     then parse_gs1_barcode (unicode_nd E) payload
     else Ok empty_info,
     w).
Proof.
  intros [-> | ->].
  - change (get_medicine_info_from_barcode E payload "CODE128" w)
      with (parse_code128_medicine_data (unicode_nd E) payload, w).
    unfold parse_code128_medicine_data.
    by destruct (startswith payload "01").
  - change (get_medicine_info_from_barcode E payload "DATAMATRIX" w)
      with (parse_datamatrix_medicine_data (unicode_nd E) payload, w).
    unfold parse_datamatrix_medicine_data.
    by destruct (startswith payload "01").
Qed.

Lemma gs1_dispatch_on_01_witness :
  get_medicine_info_from_barcode
    (bench (Ok []) (Ok []))
    "0117240615" "DATAMATRIX" upload
  = (parse_gs1_barcode arabic_indic "0117240615", upload).
Proof.
  apply (gs1_dispatch_on_01 (bench (Ok []) (Ok [])) "0117240615" "DATAMATRIX").
  by right.
Defined.

(** C7.  For every payload and every symbology outside the six known ones
    the dispatcher returns, without raising and without any effect, the
    record whose six fields are the empty string. *)
Theorem unknown_symbology_empty_record
        (E : capabilities) (payload symbology : text) (w : world) :
  ~ In symbology known_symbologies ->
  get_medicine_info_from_barcode E payload symbology w = (Ok empty_info, w) /\
  (forall k, In k info_fields -> empty_info !! k = Some (VStr "")) /\
  (forall k, is_Some (empty_info !! k) -> In k info_fields).
Proof.
  intros Hout. split; [|split].
  - unfold get_medicine_info_from_barcode. cbn [existsb].
    repeat match goal with
    | |- context [text_eqb symbology ?s] =>
        rewrite (text_eqb_neq symbology s)
          by (intros ->; apply Hout; unfold known_symbologies; simpl; tauto)
    end.
    reflexivity.
  - intros k Hk. simpl in Hk.
    repeat destruct Hk as [<-|Hk]; try done.
  - intros k. rewrite <- gs1_record_empty. apply gs1_record_keys.
Qed.

Lemma unknown_symbology_empty_record_witness :
  get_medicine_info_from_barcode
    (bench (Ok []) (Ok []))
    "0117240615" "UNKNOWN" upload
  = (Ok empty_info, upload).
Proof.
  apply (unknown_symbology_empty_record _ "0117240615" "UNKNOWN").
  unfold known_symbologies. simpl. intros H.
  repeat destruct H as [H|H]; try discriminate H. exact H.
Defined.

(** ** [scan_barcode] *)

Lemma assemble_lookup e b q barcode_data barcode_type :
  let r := assemble (gs1_record e b q) barcode_data barcode_type in
  r !! "medicineName" = Some (VStr "") /\
  r !! "price" = Some (VStr "") /\
  r !! "manufacturingDate" = Some (VStr "") /\
  r !! "expiryDate" = Some (VStr e) /\
  r !! "batchNumber" = Some (VStr b) /\
  r !! "quantity" = Some (VStr q) /\
  r !! "barcodeData" = Some (VStr barcode_data) /\
  r !! "barcodeType" = Some (VStr barcode_type).
Proof. vm_compute. done. Qed.

(** Each of the six fields of the record of [scan_barcode] is the field
    of the dictionary it is assembled from. *)
Lemma assemble_fields e b q barcode_data barcode_type k :
  In k info_fields ->
  assemble (gs1_record e b q) barcode_data barcode_type !! k
  = gs1_record e b q !! k /\
  exists s,
    assemble (gs1_record e b q) barcode_data barcode_type !! k
    = Some (VStr s).
Proof.
  intros Hk. simpl in Hk.
  repeat destruct Hk as [<-|Hk]; [..|done];
    (split; [|eexists]; vm_compute; reflexivity).
Qed.

(** The record of [scan_barcode] has the six fields and the two barcode
    entries, whatever the dictionary it is assembled from. *)
Lemma assemble_keys medicine_info barcode_data barcode_type k :
  is_Some (assemble medicine_info barcode_data barcode_type !! k) <->
  In k (info_fields ++ ["barcodeData"; "barcodeType"]).
Proof.
  unfold assemble, info_fields.
  rewrite <- list_elem_of_In, <- elem_of_dom, dom_list_to_map_L.
  cbn [fmap list_fmap fst app]. set_solver.
Qed.

(** C1.  For the CODE128 payload of the end-to-end example the dispatcher
    and the assembled record give the expiry date and the symbology, and
    an empty batch number: the character after ["10"] is a [1], which the
    batch pattern excludes. *)
Theorem code128_example_has_no_batch (E : capabilities) (w : world) :
  let payload := "0112345678901231172406151012345678"%text in
  exists info,
    get_medicine_info_from_barcode E payload "CODE128" w = (Ok info, w) /\
    assemble info payload "CODE128" !! "expiryDate" = Some (VStr "2024-06-15") /\
    assemble info payload "CODE128" !! "batchNumber" = Some (VStr "") /\
    assemble info payload "CODE128" !! "barcodeType" = Some (VStr "CODE128").
Proof.
  intros payload. eexists. split.
  - assert (Hroute : get_medicine_info_from_barcode E payload "CODE128" w
                     = (parse_gs1_barcode (unicode_nd E) payload, w))
      by reflexivity.
    by rewrite Hroute, parse_gs1_barcode_eq.
  - by vm_compute.
Qed.

Section ScanFacts.
Variable E : capabilities.

Lemma Image_open_present path w img w' :
  Image_open E path w = (Ok img, w') -> is_Some (files w !! path).
Proof.
  unfold Image_open. destruct (files w !! path); [eauto|discriminate].
Qed.

Lemma Image_open_world path w r w' :
  Image_open E path w = (r, w') -> w' = w.
Proof.
  unfold Image_open. destruct (files w !! path); by intros [= _ <-].
Qed.

(** The retry block when opening and decoding the enhanced image return:
    the enhanced file is removed. *)
Lemma retry_on_enhanced_returns image_path w ep w1 img' syms :
  enhance_image_for_barcode E image_path w = (Ok ep, w1) ->
  Image_open E ep w1 = (Ok img', w1) ->
  pyzbar_decode E img' = Ok syms ->
  retry_on_enhanced E image_path w
  = (Ok syms, with_files (delete ep (files w1)) w1).
Proof.
  intros Henh Hopen Hdec. unfold retry_on_enhanced.
  rewrite (bind_Ok _ _ _ _ _ Henh).
  rewrite (bind_Ok _ _ _ _ _ Hopen).
  rewrite (bind_lift_Ok _ _ _ _ Hdec).
  destruct (Image_open_present _ _ _ _ Hopen) as [b Hb].
  unfold mbind, M_bind, bind, os_path_exists, when, os_unlink.
  rewrite bool_decide_eq_true_2 by eauto.
  by rewrite Hb.
Qed.

(** When opening or decoding the enhanced image raises, the block is left
    before the clean-up. *)
Lemma retry_on_enhanced_raises image_path w ep w1 img' e :
  enhance_image_for_barcode E image_path w = (Ok ep, w1) ->
  Image_open E ep w1 = (Ok img', w1) ->
  pyzbar_decode E img' = Raise e ->
  retry_on_enhanced E image_path w = (Raise e, w1).
Proof.
  intros Henh Hopen Hdec. unfold retry_on_enhanced.
  rewrite (bind_Ok _ _ _ _ _ Henh).
  rewrite (bind_Ok _ _ _ _ _ Hopen).
  unfold mbind, M_bind, bind, lift. by rewrite Hdec.
Qed.

(** A retry block that returns has enhanced the image, opened and decoded
    the enhanced file, and removed it. *)
Lemma retry_on_enhanced_inv image_path w syms w' :
  retry_on_enhanced E image_path w = (Ok syms, w') ->
  exists ep w1 img',
    enhance_image_for_barcode E image_path w = (Ok ep, w1) /\
    Image_open E ep w1 = (Ok img', w1) /\
    pyzbar_decode E img' = Ok syms /\
    w' = with_files (delete ep (files w1)) w1.
Proof.
  intros H. pose proof H as H0. unfold retry_on_enhanced in H0.
  apply bind_Ok_inv in H0 as (ep & w1 & Henh & H0).
  apply bind_Ok_inv in H0 as (img' & w2 & Hopen & H0).
  pose proof (Image_open_world _ _ _ _ Hopen) as ->.
  apply bind_Ok_inv in H0 as (syms' & w3 & Hdec & _).
  unfold lift in Hdec. injection Hdec as Hdec _.
  rewrite (retry_on_enhanced_returns _ _ _ _ _ _ Henh Hopen Hdec) in H.
  injection H as <- <-. by exists ep, w1, img'.
Qed.

Lemma process_first_files syms w :
  files (snd (process_first E syms w)) = files w.
Proof.
  unfold process_first. destruct syms as [|barcode syms]; [reflexivity|].
  unfold mbind, M_bind, bind, lift.
  destruct (utf8_decode E (sym_data barcode)) as [data|e]; [|reflexivity].
  destruct (get_medicine_info_from_barcode_cases E data (sym_type barcode) w)
    as (ex & b & q & w' & -> & Hf & _).
  exact Hf.
Qed.

(** A returning [process_first] has decoded the payload of the first
    symbol and assembled what the dispatcher gave for it. *)
Lemma process_first_inv syms w r w' :
  process_first E syms w = (Ok r, w') ->
  exists barcode rest barcode_data info,
    syms = barcode :: rest /\
    utf8_decode E (sym_data barcode) = Ok barcode_data /\
    get_medicine_info_from_barcode E barcode_data (sym_type barcode) w
    = (Ok info, w') /\
    r = assemble info barcode_data (sym_type barcode).
Proof.
  unfold process_first. destruct syms as [|barcode rest]; [discriminate|].
  intros (data & w1 & Hdec & H)%bind_Ok_inv.
  unfold lift in Hdec. injection Hdec as Hdec <-.
  apply bind_Ok_inv in H as (info & w2 & Hinfo & H).
  injection H as <- <-.
  by exists barcode, rest, data, info.
Qed.

Lemma scan_barcode_Ok_inv image_path w r w' :
  scan_barcode E image_path w = (Ok r, w') ->
  scan_body E image_path w = (Ok r, w').
Proof.
  unfold scan_barcode, try_except.
  destruct (scan_body E image_path w) as [[r0|e] w0]; [done|discriminate].
Qed.

(** Whatever [scan_barcode] raises is a [ValueError] with the prefix of
    its handler. *)
Lemma scan_barcode_Raise_inv image_path w e :
  fst (scan_barcode E image_path w) = Raise e ->
  exists reason, e = ScanFailed reason.
Proof.
  unfold scan_barcode, try_except.
  destruct (scan_body E image_path w) as [[r0|e0] w0]; [discriminate|].
  intros [= <-]. by exists (exc_msg e0).
Qed.

(** The record [scan_barcode] returns comes from the first symbol found
    on the image at [image_path], or, when none is found there, on its
    enhanced image. *)
Lemma scan_body_inv image_path w r w' :
  scan_body E image_path w = (Ok r, w') ->
  exists img barcode rest barcode_data info w2,
    Image_open E image_path w = (Ok img, w) /\
    (pyzbar_decode E img = Ok (barcode :: rest) /\ w2 = w
     \/
     pyzbar_decode E img = Ok [] /\
     exists ep w1 img',
       enhance_image_for_barcode E image_path w = (Ok ep, w1) /\
       Image_open E ep w1 = (Ok img', w1) /\
       pyzbar_decode E img' = Ok (barcode :: rest) /\
       w2 = with_files (delete ep (files w1)) w1) /\
    utf8_decode E (sym_data barcode) = Ok barcode_data /\
    get_medicine_info_from_barcode E barcode_data (sym_type barcode) w2
    = (Ok info, w') /\
    r = assemble info barcode_data (sym_type barcode).
Proof.
  unfold scan_body.
  intros (img & w1 & Hopen & H)%bind_Ok_inv.
  pose proof (Image_open_world _ _ _ _ Hopen) as ->.
  apply bind_Ok_inv in H as (syms0 & w2 & Hdec0 & H).
  unfold lift in Hdec0. injection Hdec0 as Hdec0 <-.
  apply bind_Ok_inv in H as (syms & w3 & Hsyms & H).
  apply bind_Ok_inv in H as ([] & w4 & Hwhen & H).
  assert (w4 = w3) as ->.
  { unfold when in Hwhen. destruct (is_empty syms); [discriminate|].
    by injection Hwhen as <-. }
  apply process_first_inv in H
    as (barcode & rest & data & info & -> & Hutf & Hinfo & ->).
  exists img, barcode, rest, data, info, w3.
  split_and!; try done.
  destruct syms0 as [|s0 syms0]; cbn [is_empty] in Hsyms.
  - right. split; [done|].
    apply retry_on_enhanced_inv in Hsyms
      as (ep & w1 & img' & Henh & Hopen' & Hdec' & ->).
    by exists ep, w1, img'.
  - left. unfold ret in Hsyms. by injection Hsyms as <- <- <-.
Qed.

End ScanFacts.

Section ScanOutcomes.
Variable E : capabilities.

Lemma scan_barcode_world image_path w :
  snd (scan_barcode E image_path w) = snd (scan_body E image_path w).
Proof.
  unfold scan_barcode, try_except.
  by destruct (scan_body E image_path w) as [[r|e] w'].
Qed.

Lemma scan_barcode_raises image_path w e w' :
  scan_body E image_path w = (Raise e, w') ->
  scan_barcode E image_path w = (Raise (ScanFailed (exc_msg e)), w').
Proof. unfold scan_barcode, try_except. by intros ->. Qed.

Lemma scan_barcode_returns image_path w r w' :
  scan_body E image_path w = (Ok r, w') ->
  scan_barcode E image_path w = (Ok r, w').
Proof. unfold scan_barcode, try_except. by intros ->. Qed.

(** The body when the first decoding finds a symbol: the retry block is
    not entered. *)
Lemma scan_body_direct_eq image_path w img barcode rest :
  Image_open E image_path w = (Ok img, w) ->
  pyzbar_decode E img = Ok (barcode :: rest) ->
  scan_body E image_path w = process_first E (barcode :: rest) w.
Proof.
  intros Hopen Hdec. unfold scan_body.
  rewrite (bind_Ok _ _ _ _ _ Hopen).
  by rewrite (bind_lift_Ok _ _ _ _ Hdec).
Qed.

(** The body up to the end of the retry block, when the first decoding
    finds nothing. *)
Lemma scan_body_retry_eq image_path w img :
  Image_open E image_path w = (Ok img, w) ->
  pyzbar_decode E img = Ok [] ->
  scan_body E image_path w
  = match retry_on_enhanced E image_path w with
    | (Ok barcodes, w2) =>
        (when (is_empty barcodes)
           (raise (Exc ValueError "No barcode detected in the image"));;
         process_first E barcodes) w2
    | (Raise e, w2) => (Raise e, w2)
    end.
Proof.
  intros Hopen Hdec. unfold scan_body.
  rewrite (bind_Ok _ _ _ _ _ Hopen).
  rewrite (bind_lift_Ok _ _ _ _ Hdec). cbn [is_empty].
  unfold mbind at 1, M_bind at 1, bind at 1.
  by destruct (retry_on_enhanced E image_path w) as [[barcodes|e] w2].
Qed.

Lemma scan_barcode_no_barcode image_path w img ep w1 img' :
  Image_open E image_path w = (Ok img, w) ->
  pyzbar_decode E img = Ok [] ->
  enhance_image_for_barcode E image_path w = (Ok ep, w1) ->
  Image_open E ep w1 = (Ok img', w1) ->
  pyzbar_decode E img' = Ok [] ->
  scan_barcode E image_path w
  = (Raise (ScanFailed "No barcode detected in the image"),
     with_files (delete ep (files w1)) w1).
Proof.
  intros Hopen Hdec Henh Hopen' Hdec'.
  apply (scan_barcode_raises _ _ (Exc ValueError "No barcode detected in the image")).
  rewrite (scan_body_retry_eq _ _ _ Hopen Hdec).
  by rewrite (retry_on_enhanced_returns _ _ _ _ _ _ _ Henh Hopen' Hdec').
Qed.

(** When opening and decoding the enhanced image return, the enhanced
    file is gone once [scan_barcode] is left, whether a symbol was found
    or not. *)
Lemma enhanced_file_removed_when_decoding_returns
      image_path w img ep w1 img' syms :
  Image_open E image_path w = (Ok img, w) ->
  pyzbar_decode E img = Ok [] ->
  enhance_image_for_barcode E image_path w = (Ok ep, w1) ->
  Image_open E ep w1 = (Ok img', w1) ->
  pyzbar_decode E img' = Ok syms ->
  files (snd (scan_barcode E image_path w)) !! ep = None.
Proof.
  intros Hopen Hdec Henh Hopen' Hdec'.
  rewrite scan_barcode_world, (scan_body_retry_eq _ _ _ Hopen Hdec).
  rewrite (retry_on_enhanced_returns _ _ _ _ _ _ _ Henh Hopen' Hdec').
  destruct syms as [|barcode rest].
  - cbn. apply lookup_delete_eq.
  - unfold when. cbn [is_empty].
    unfold mbind at 1, M_bind at 1, bind at 1, mret, M_ret, ret.
    rewrite process_first_files. cbn. apply lookup_delete_eq.
Qed.

(** When decoding the enhanced image raises, the enhanced file is still
    there once [scan_barcode] is left. *)
Lemma enhanced_file_kept_when_decoding_raises
      image_path w img ep w1 img' e :
  Image_open E image_path w = (Ok img, w) ->
  pyzbar_decode E img = Ok [] ->
  enhance_image_for_barcode E image_path w = (Ok ep, w1) ->
  Image_open E ep w1 = (Ok img', w1) ->
  pyzbar_decode E img' = Raise e ->
  scan_barcode E image_path w = (Raise (ScanFailed (exc_msg e)), w1) /\
  is_Some (files w1 !! ep).
Proof.
  intros Hopen Hdec Henh Hopen' Hdec'. split.
  - apply scan_barcode_raises.
    rewrite (scan_body_retry_eq _ _ _ Hopen Hdec).
    by rewrite (retry_on_enhanced_raises _ _ _ _ _ _ _ Henh Hopen' Hdec').
  - by eapply Image_open_present.
Qed.

End ScanOutcomes.

(** ** Concrete runs *)

(** C3, as stated, fails: with no symbol on either image the exception
    that leaves [scan_barcode] is a [ScanFailed], the one with the reason
    ["No barcode detected in the image"]. *)
Lemma no_barcode_is_not_a_kind_of_its_own :
  let err := ScanFailed "No barcode detected in the image" in
  fst (scan_barcode (bench (Ok []) (Ok [])) "scan.jpg" upload) = Raise err /\
  ~ (forall reason, err <> ScanFailed reason).
Proof.
  split; [by vm_compute|].
  intros H. by apply (H "No barcode detected in the image").
Qed.

(** C3, amended.  When decoding the original image and decoding the
    enhanced image both yield no symbol, [scan_barcode] raises the
    [ValueError] with the message ["Barcode scanning failed: No barcode
    detected in the image"]; every exception of [scan_barcode] is a
    [ValueError] with that prefix. *)
Theorem no_barcode_raises_scan_failed
        (E : capabilities) (image_path : string) (w : world)
        (img : image E) (ep : string) (w1 : world) (img' : image E) :
  Image_open E image_path w = (Ok img, w) ->
  pyzbar_decode E img = Ok [] ->
  enhance_image_for_barcode E image_path w = (Ok ep, w1) ->
  Image_open E ep w1 = (Ok img', w1) ->
  pyzbar_decode E img' = Ok [] ->
  fst (scan_barcode E image_path w)
  = Raise (Exc ValueError
             "Barcode scanning failed: No barcode detected in the image") /\
  (forall E' image_path' w' e,
     fst (scan_barcode E' image_path' w') = Raise e ->
     exc_type e = ValueError /\
     exists reason, exc_msg e = "Barcode scanning failed: " +:+ reason).
Proof.
  intros Hopen Hdec Henh Hopen' Hdec'. split.
  - by rewrite (scan_barcode_no_barcode _ _ _ _ _ _ _ Hopen Hdec Henh Hopen' Hdec').
  - intros E' p' w' e [reason ->]%scan_barcode_Raise_inv. split; [done|].
    by exists reason.
Qed.

Lemma no_barcode_raises_scan_failed_witness :
  fst (scan_barcode (bench (Ok []) (Ok [])) "scan.jpg" upload)
  = Raise (Exc ValueError
             "Barcode scanning failed: No barcode detected in the image").
Proof.
  refine (proj1 (no_barcode_raises_scan_failed
                   (bench (Ok []) (Ok [])) "scan.jpg" upload photo
                   "scan_enhanced.jpg" enhanced_upload thresholded
                   _ _ _ _ _)).
  - reflexivity.
  - reflexivity.
  - reflexivity.
  - reflexivity.
  - reflexivity.
Defined.

(** C5.  On every path the dispatcher returns, without raising, a record
    with exactly the six fields, each a string: the three that no parser
    fills are empty, all six are empty off the GS1 path, and on it the
    expiry date, the batch number and the quantity are empty whenever the
    payload holds nothing their patterns find.  A record [scan_barcode]
    returns is made from the first symbol found on the image opened at
    [image_path], or, when none is found there, on its enhanced image: its
    six fields are those the dispatcher returns for the decoded payload
    and the symbology of that symbol, [barcodeData] is that payload,
    [barcodeType] that symbology, and it has no other key. *)
Theorem records_are_fully_keyed (E : capabilities) :
  (forall barcode_data barcode_type w,
     exists info w',
       get_medicine_info_from_barcode E barcode_data barcode_type w
       = (Ok info, w') /\
       (forall k, is_Some (info !! k) <-> In k info_fields) /\
       (forall k, In k info_fields -> exists s, info !! k = Some (VStr s)) /\
       (forall k, In k ["medicineName"; "price"; "manufacturingDate"] ->
                  info !! k = Some (VStr "")) /\
       (~ ((barcode_type = "CODE128"%text \/ barcode_type = "DATAMATRIX"%text) /\
           startswith barcode_data "01" = true) ->
        forall k, In k info_fields -> info !! k = Some (VStr "")) /\
       ((forall pre d post,
           barcode_data = pre +++ "17" +++ d +++ post ->
           length d = 6 -> forallb (is_decimal (unicode_nd E)) d = true ->
           False) ->
        info !! "expiryDate" = Some (VStr "")) /\
       ((forall pre c rest,
           barcode_data = pre +++ "10" +++ c :: rest -> batch_char c = false) ->
        info !! "batchNumber" = Some (VStr "")) /\
       ((forall pre c rest,
           barcode_data = pre +++ "30" +++ c :: rest ->
           is_decimal (unicode_nd E) c = false) ->
        info !! "quantity" = Some (VStr "")))
  /\
  (forall image_path w r w',
     scan_barcode E image_path w = (Ok r, w') ->
     exists img barcode rest barcode_data info w2,
       Image_open E image_path w = (Ok img, w) /\
       (pyzbar_decode E img = Ok (barcode :: rest) /\ w2 = w
        \/
        pyzbar_decode E img = Ok [] /\
        exists ep w1 img',
          enhance_image_for_barcode E image_path w = (Ok ep, w1) /\
          Image_open E ep w1 = (Ok img', w1) /\
          pyzbar_decode E img' = Ok (barcode :: rest) /\
          w2 = with_files (delete ep (files w1)) w1) /\
       utf8_decode E (sym_data barcode) = Ok barcode_data /\
       get_medicine_info_from_barcode E barcode_data (sym_type barcode) w2
       = (Ok info, w') /\
       (forall k, In k info_fields ->
                  r !! k = info !! k /\ exists s, r !! k = Some (VStr s)) /\
       r !! "barcodeData" = Some (VStr barcode_data) /\
       r !! "barcodeType" = Some (VStr (sym_type barcode)) /\
       (forall k, is_Some (r !! k) <->
                  In k (info_fields ++ ["barcodeData"; "barcodeType"]))).
Proof.
  split.
  - intros data ty w.
    destruct (get_medicine_info_from_barcode_cases E data ty w)
      as (e & b & q & w' & -> & _ & Hval).
    exists (gs1_record e b q), w'. split; [done|].
    pose proof (gs1_record_lookup e b q) as (? & ? & ? & He & Hb & Hq).
    split_and!.
    + intros k. apply gs1_record_keys.
    + intros k Hk. simpl in Hk.
      repeat destruct Hk as [<-|Hk]; try done; eauto.
    + intros k Hk. simpl in Hk.
      repeat destruct Hk as [<-|Hk]; try done.
    + intros Hoff. destruct Hval as [(-> & -> & ->)|(Hty & H01 & _)].
      * intros k Hk. simpl in Hk.
        repeat destruct Hk as [<-|Hk]; try done.
      * destruct Hoff. by split.
    + intros Hno. rewrite He. do 2 f_equal.
      destruct Hval as [(-> & _)|(_ & _ & -> & _)]; [done|].
      destruct (expiry_value_cases (unicode_nd E) data)
        as [[Hv _]|(pre & d & post & Hp & Hl & Hd & _)]; [done|].
      destruct (Hno pre d post Hp Hl Hd).
    + intros Hno. rewrite Hb. do 2 f_equal.
      destruct Hval as [(_ & -> & _)|(_ & _ & _ & -> & _)]; [done|].
      destruct (batch_value_cases (unicode_nd E) data)
        as [[Hv _]|(pre & post & Hp & Hne & Hok & _)]; [done|].
      destruct (batch_value (unicode_nd E) data) as [|c v]; [done|].
      specialize (Hno pre c (v +++ post) Hp).
      simpl in Hok. apply andb_true_iff in Hok as [Hc _]. congruence.
    + intros Hno. rewrite Hq. do 2 f_equal.
      destruct Hval as [(_ & _ & ->)|(_ & _ & _ & _ & ->)]; [done|].
      destruct (quantity_value_cases (unicode_nd E) data)
        as [[Hv _]|(pre & post & Hp & Hne & Hok & _)]; [done|].
      destruct (quantity_value (unicode_nd E) data) as [|c v]; [done|].
      specialize (Hno pre c (v +++ post) Hp).
      simpl in Hok. apply andb_true_iff in Hok as [Hc _]. congruence.
  - intros image_path w r w' Hscan%scan_barcode_Ok_inv.
    apply scan_body_inv in Hscan
      as (img & barcode & rest & data & info & w2
          & Hopen & Hfound & Hutf & Hinfo & ->).
    exists img, barcode, rest, data, info, w2.
    split_and!; try done.
    + destruct (get_medicine_info_from_barcode_cases
                  E data (sym_type barcode) w2)
        as (e & b & q & w3 & Hcase & _).
      rewrite Hcase in Hinfo. injection Hinfo as <- _.
      intros k Hk. by apply assemble_fields.
    + apply assemble_keys.
Qed.

Lemma records_are_fully_keyed_witness :
  let E := bench (Ok [code128_symbol]) (Ok []) in
  exists r w',
    scan_barcode E "scan.jpg" upload = (Ok r, w') /\
    (forall k, is_Some (r !! k) <->
               In k (info_fields ++ ["barcodeData"; "barcodeType"])).
Proof.
  intros E. eexists _, _. split; [reflexivity|].
  destruct (proj2 (records_are_fully_keyed E) "scan.jpg" upload _ _ eq_refl)
    as (_ & _ & _ & _ & _ & _ & _ & _ & _ & _ & _ & _ & _ & Hkeys).
  exact Hkeys.
Defined.

(** The end-to-end example through [scan_barcode]: the symbol is found on
    the uploaded image, and the record has no batch number. *)
Example scan_code128_run :
  exists r,
    fst (scan_barcode (bench (Ok [code128_symbol]) (Ok [])) "scan.jpg" upload)
    = Ok r /\
    r !! "expiryDate" = Some (VStr "2024-06-15") /\
    r !! "batchNumber" = Some (VStr "") /\
    r !! "quantity" = Some (VStr "") /\
    r !! "barcodeData" = Some (VStr "0112345678901231172406151012345678") /\
    r !! "barcodeType" = Some (VStr "CODE128").
Proof. eexists. split; [reflexivity|]. by vm_compute. Qed.

(** C8.  A run of the retry branch in which the decoder raises on the
    enhanced image: [scan_barcode] fails and the enhanced file, absent
    before the call, is still there after it. *)
Theorem enhanced_file_left_behind :
  let E := bench (Ok []) (Raise zbar_failure) in
  files upload !! "scan_enhanced.jpg" = None /\
  fst (scan_barcode E "scan.jpg" upload)
  = Raise (ScanFailed "zbar could not scan the image") /\
  files (snd (scan_barcode E "scan.jpg" upload)) !! "scan_enhanced.jpg"
  = Some thresholded.
Proof. by vm_compute. Qed.

(** The same image when the decoder finds nothing, and when it finds a
    symbol on the enhanced image only: the enhanced file is removed. *)
Example enhanced_file_removed_runs :
  files (snd (scan_barcode (bench (Ok []) (Ok [])) "scan.jpg" upload))
    !! "scan_enhanced.jpg" = None /\
  files (snd (scan_barcode (bench (Ok []) (Ok [code128_symbol])) "scan.jpg" upload))
    !! "scan_enhanced.jpg" = None.
Proof. by vm_compute. Qed.

(** A path without [".jpg"] is its own enhanced path: the retry branch
    overwrites the uploaded file and then removes it. *)
Example enhanced_path_without_jpg :
  let w := World {["scan.png" := photo]} ∅ [] in
  fst (enhance_image_for_barcode (bench (Ok []) (Ok [])) "scan.png" w)
  = Ok "scan.png" /\
  files (snd (scan_barcode (bench (Ok []) (Ok [])) "scan.png" w)) !! "scan.png"
  = None.
Proof. by vm_compute. Qed.

(** * Further properties of the code *)

(** ** [parse_gs1_barcode] *)

Lemma gs1_record_inj e b q e' b' q' :
  gs1_record e b q = gs1_record e' b' q' -> e = e' /\ b = b' /\ q = q'.
Proof.
  intros H.
  pose proof (gs1_record_lookup e b q) as (_ & _ & _ & He & Hb & Hq).
  pose proof (gs1_record_lookup e' b' q') as (_ & _ & _ & He' & Hb' & Hq').
  rewrite H in He, Hb, Hq. split_and!; congruence.
Qed.

Lemma batch_char_false c : batch_char c = false <-> In c backslash_x_1_D.
Proof.
  unfold batch_char. rewrite negb_false_iff, existsb_exists. split.
  - by intros (x & Hx & ->%N.eqb_eq).
  - intros Hc. exists c. split; [done|apply N.eqb_refl].
Qed.

(** X2.  [parse_gs1_barcode] returns the all-empty record exactly for the
    payloads in which no ["17"] is followed by six decimal digits, every
    ["10"] is followed by nothing or by one of backslash, [x], [1], [D],
    and no ["30"] is followed by a decimal digit. *)
Theorem parse_gs1_empty_iff (nd : char -> bool) (payload : text) :
  parse_gs1_barcode nd payload = Ok empty_info <->
  (forall pre d post,
     payload = pre +++ "17" +++ d +++ post ->
     length d = 6 -> forallb (is_decimal nd) d = true -> False) /\
  (forall pre c rest,
     payload = pre +++ "10" +++ c :: rest -> In c backslash_x_1_D) /\
  (forall pre c rest,
     payload = pre +++ "30" +++ c :: rest -> is_decimal nd c = false).
Proof.
  rewrite parse_gs1_barcode_eq, <- gs1_record_empty. split.
  - intros H.
    assert (H' : gs1_record (expiry_value nd payload) (batch_value nd payload)
                   (quantity_value nd payload) = gs1_record "" "" "")
      by congruence.
    apply gs1_record_inj in H' as (He & Hb & Hq). clear H.
    split_and!.
    + destruct (expiry_value_cases nd payload)
        as [[_ Hno]|(pre & d & post & _ & Hl & Hd & Hf & _)]; [exact Hno|].
      rewrite He in Hf. destruct (six_digits _ d Hl Hd)
        as (? & ? & ? & _ & _ & _ & _ & _ & _ & _ & Hf').
      rewrite Hf' in Hf. discriminate.
    + destruct (batch_value_cases nd payload)
        as [[_ Hno]|(pre & post & _ & Hne & _)]; [|by rewrite Hb in Hne].
      intros pre c rest Hp. apply batch_char_false. by eapply Hno.
    + destruct (quantity_value_cases nd payload)
        as [[_ Hno]|(pre & post & _ & Hne & _)]; [exact Hno|by rewrite Hq in Hne].
  - intros (Hexp & Hbat & Hqty).
    apply gs1_record_ext.
    + destruct (expiry_value_cases nd payload)
        as [[He _]|(pre & d & post & Hp & Hl & Hd & _)]; [done|].
      destruct (Hexp pre d post Hp Hl Hd).
    + destruct (batch_value_cases nd payload)
        as [[Hb _]|(pre & post & Hp & Hne & Hok & _)]; [done|].
      destruct (batch_value nd payload) as [|c b]; [done|].
      specialize (Hbat pre c (b +++ post) Hp).
      apply batch_char_false in Hbat.
      simpl in Hok. apply andb_true_iff in Hok as [Hc _]. congruence.
    + destruct (quantity_value_cases nd payload)
        as [[Hq _]|(pre & post & Hp & Hne & Hok & _)]; [done|].
      destruct (quantity_value nd payload) as [|c q]; [done|].
      specialize (Hqty pre c (q +++ post) Hp).
      simpl in Hok. apply andb_true_iff in Hok as [Hc _]. congruence.
Qed.

(** X3.  Whatever the payload, the batch number [parse_gs1_barcode] returns
    contains none of the characters backslash, [x], [1] and [D]. *)
Theorem batch_number_alphabet (nd : char -> bool) (payload : text) :
  exists info b,
    parse_gs1_barcode nd payload = Ok info /\
    info !! "batchNumber" = Some (VStr b) /\
    without (code "\") b /\ without (code "x") b /\
    without (code "1") b /\ without (code "D") b.
Proof.
  eexists _, (batch_value nd payload).
  split; [apply parse_gs1_barcode_eq|].
  split; [apply gs1_record_lookup|].
  assert (Hok : forallb batch_char (batch_value nd payload) = true).
  { destruct (batch_value_cases nd payload) as [[-> _]|(? & ? & _ & _ & H & _)];
      [reflexivity|exact H]. }
  unfold without. induction (batch_value nd payload) as [|c b IH]; [done|].
  cbn [forallb] in Hok. apply andb_true_iff in Hok as [Hc Hb].
  destruct (IH Hb) as (H1 & H2 & H3 & H4).
  cbn [forallb]. rewrite H1, H2, H3, H4, !andb_true_r.
  unfold batch_char, backslash_x_1_D in Hc. cbn [existsb] in Hc.
  apply negb_true_iff in Hc.
  repeat (apply orb_false_iff in Hc as [? Hc]).
  split_and!; by apply negb_true_iff.
Qed.

(** X4.  A payload that begins with ["17"] and six decimal digits gets its
    expiry date from those six digits, whatever they are and whatever
    follows: the month and the day are not checked. *)
Theorem expiry_at_start (nd : char -> bool) (yy mm dd rest : text) :
  length yy = 2 -> length mm = 2 -> length dd = 2 ->
  forallb (is_decimal nd) (yy +++ mm +++ dd) = true ->
  exists info,
    parse_gs1_barcode nd ("17" +++ yy +++ mm +++ dd +++ rest) = Ok info /\
    info !! "expiryDate" = Some (VStr ("20" +++ yy +++ "-" +++ mm +++ "-" +++ dd)).
Proof.
  intros Hy Hm Hdd Hdig. eexists. split; [apply parse_gs1_barcode_eq|].
  set (payload := "17" +++ yy +++ mm +++ dd +++ rest).
  set (d := yy +++ mm +++ dd) in *.
  assert (Hl : length d = 6)
    by (unfold d; rewrite !length_app; lia).
  assert (Hp : payload = [] +++ "17" +++ d +++ rest)
    by (unfold payload, d; by rewrite <- !app_assoc).
  assert (Hval : expiry_value nd payload = format_expiry d).
  { destruct (expiry_value_cases nd payload)
      as [[_ Hno]|(pre & d' & post & Hp' & Hl' & _ & -> & Hmin)].
    - destruct (Hno _ _ _ Hp Hl Hdig).
    - specialize (Hmin _ _ _ Hp Hl Hdig). simpl in Hmin.
      destruct pre; [|simpl in Hmin; lia].
      pose proof (eq_trans (eq_sym Hp') Hp) as Heq.
      simpl in Heq. injection Heq as Heq.
      apply text_app_inv_length in Heq as [-> _]; [done|lia]. }
  rewrite Hval.
  assert (Hfmt : format_expiry d = "20" +++ yy +++ "-" +++ mm +++ "-" +++ dd).
  { unfold d.
    destruct yy as [|y1 [|y2 [|]]]; try discriminate.
    destruct mm as [|m1 [|m2 [|]]]; try discriminate.
    destruct dd as [|d1 [|d2 [|]]]; try discriminate.
    reflexivity. }
  rewrite Hfmt. apply gs1_record_lookup.
Qed.

Lemma expiry_at_start_witness :
  exists info,
    parse_gs1_barcode ascii_only "1799139910LOT" = Ok info /\
    info !! "expiryDate" = Some (VStr "2099-13-99").
Proof.
  apply (expiry_at_start ascii_only "99" "13" "99" "10LOT"); reflexivity.
Defined.

(** X1.  For EAN13, EAN8, UPCA and UPCE the dispatcher returns the
    all-empty record for every barcode and every answer of the network: the
    lookup stops at the unbound name [requests], prints the one line of its
    handler and changes neither the files nor the environment. *)
Theorem upc_lookup_finds_nothing
        (E : capabilities) (barcode_data barcode_type : text) (w : world) :
  In barcode_type ["EAN13"%text; "EAN8"%text; "UPCA"%text; "UPCE"%text] ->
  get_medicine_info_from_barcode E barcode_data barcode_type w
  = (Ok empty_info,
     World (files w) (environ w)
       (stdout w ++
        ["Error fetching from UPC database: name 'requests' is not defined"])).
Proof.
  intros Hin. simpl in Hin.
  destruct Hin as [<-|[<-|[<-|[<-|[]]]]]; reflexivity.
Qed.

Lemma upc_lookup_finds_nothing_witness :
  fst (get_medicine_info_from_barcode
         (bench (Ok []) (Ok [])) "4006381333931" "EAN13" upload)
  = Ok empty_info.
Proof.
  rewrite (upc_lookup_finds_nothing _ "4006381333931" "EAN13" upload);
    [reflexivity|simpl; tauto].
Defined.

(** ** [str.replace] and the path of the enhanced image *)

Section Replace.
Variables old new : string.
Hypothesis old_nonempty : 0 < String.length old.

Lemma prefix_split s : String.prefix old s = true -> exists u, s = old +:+ u.
Proof.
  clear old_nonempty. revert s.
  induction old as [|c o IH]; intros s H.
  - by exists s.
  - destruct s as [|c' s]; [discriminate|]. simpl in H.
    destruct (ascii_dec c c') as [->|]; [|discriminate].
    destruct (IH _ H) as [u ->]. by exists u.
Qed.

Lemma prefix_app u : String.prefix old (old +:+ u) = true.
Proof.
  clear old_nonempty.
  induction old as [|c o IH]; [by destruct u|].
  rewrite str_app_cons. simpl.
  destruct (ascii_dec c c); [exact IH|congruence].
Qed.

Lemma str_drop_app s t : str_drop (String.length s) (s +:+ t) = t.
Proof. induction s as [|c s IH]; [reflexivity|exact IH]. Qed.

(** Without an occurrence of [old] nothing is replaced. *)
Lemma replace_from_absent fuel s :
  ~ occurs old s -> replace_from fuel old new s = s.
Proof.
  revert s. induction fuel as [|fuel IH]; intros s Hno; [reflexivity|].
  destruct s as [|c s]; [reflexivity|]. cbn [replace_from].
  destruct (String.prefix old (String c s)) eqn:Hpre.
  - destruct (prefix_split _ Hpre) as [u Hu].
    destruct Hno. exists "", u. by rewrite str_app_nil_l.
  - f_equal. apply IH. intros (pre & post & ->).
    apply Hno. by exists (String c pre), post.
Qed.

Lemma replace_from_length fuel s :
  String.length old <= String.length new ->
  String.length s <= fuel ->
  String.length s <= String.length (replace_from fuel old new s).
Proof.
  intros Hon. revert s. induction fuel as [|fuel IH]; intros s Hfuel;
    [destruct s; simpl in *; lia|].
  destruct s as [|c s]; [simpl; lia|]. cbn [replace_from].
  destruct (String.prefix old (String c s)) eqn:Hpre.
  - destruct (prefix_split _ Hpre) as [u Hu]. rewrite Hu, str_drop_app.
    rewrite Hu, str_length_app in Hfuel.
    rewrite !str_length_app. specialize (IH u). lia.
  - simpl in *. specialize (IH s). lia.
Qed.

(** With an occurrence of [old] and a longer [new] the result is longer. *)
Lemma replace_from_longer fuel s :
  String.length old < String.length new ->
  String.length s <= fuel -> occurs old s ->
  String.length s < String.length (replace_from fuel old new s).
Proof.
  intros Hon. revert s. induction fuel as [|fuel IH]; intros s Hfuel Hocc.
  - destruct Hocc as (pre & post & ->).
    rewrite !str_length_app in Hfuel. lia.
  - destruct s as [|c s].
    { destruct Hocc as (pre & post & Hs).
      apply (f_equal String.length) in Hs.
      rewrite !str_length_app in Hs. simpl in Hs. lia. }
    cbn [replace_from].
    destruct (String.prefix old (String c s)) eqn:Hpre.
    + destruct (prefix_split _ Hpre) as [u Hu]. rewrite Hu, str_drop_app.
      rewrite Hu, str_length_app in Hfuel.
      rewrite !str_length_app.
      assert (String.length u <= String.length (replace_from fuel old new u))
        by (apply replace_from_length; lia).
      lia.
    + destruct Hocc as (pre & post & Hs). destruct pre as [|c' pre].
      * rewrite str_app_nil_l in Hs. rewrite Hs, prefix_app in Hpre.
        discriminate.
      * rewrite str_app_cons in Hs. injection Hs as <- Hs.
        simpl in Hfuel. simpl.
        assert (occurs old s) as Hocc by (by exists pre, post).
        assert (String.length s <= fuel) as Hs' by lia.
        specialize (IH _ Hs' Hocc). lia.
Qed.

End Replace.

Lemma enhanced_path_differs image_path :
  occurs ".jpg" image_path -> enhanced_path_of image_path <> image_path.
Proof.
  intros Hocc Heq.
  assert (Hlt : String.length image_path
                < String.length (enhanced_path_of image_path)).
  { apply replace_from_longer; [simpl; lia|simpl; lia|lia|exact Hocc]. }
  rewrite Heq in Hlt. lia.
Qed.

Lemma enhanced_path_same image_path :
  ~ occurs ".jpg" image_path -> enhanced_path_of image_path = image_path.
Proof. intros Hno. by apply replace_from_absent. Qed.

Lemma enhance_returns_path E image_path w ep w1 :
  enhance_image_for_barcode E image_path w = (Ok ep, w1) ->
  ep = enhanced_path_of image_path.
Proof.
  unfold enhance_image_for_barcode.
  intros (img & w2 & _ & H)%bind_Ok_inv.
  apply bind_Ok_inv in H as (gray & w3 & _ & H).
  apply bind_Ok_inv in H as (blurred & w4 & _ & H).
  apply bind_Ok_inv in H as (thresh & w5 & _ & H).
  apply bind_Ok_inv in H as (written & w6 & _ & H).
  by injection H as <- _.
Qed.

(** ** The files [scan_barcode] touches *)

Section Frame.
Variable E : capabilities.
Variable path : string.

Lemma touches_only_ret {A} (a : A) : touches_only path (ret a).
Proof. by intros w p _. Qed.

Lemma touches_only_raise {A} e : touches_only path (@raise A e).
Proof. by intros w p _. Qed.

Lemma touches_only_lift {A} (r : result A) : touches_only path (lift r).
Proof. by intros w p _. Qed.

Lemma touches_only_bind {A B} (m : M A) (f : A -> M B) :
  touches_only path m -> (forall a, touches_only path (f a)) ->
  touches_only path (m ≫= f).
Proof.
  intros Hm Hf w p Hp. unfold mbind, M_bind, bind.
  specialize (Hm w p Hp). destruct (m w) as [[a|e] w1]; simpl in *.
  - by rewrite (Hf a w1 p Hp).
  - exact Hm.
Qed.

Lemma touches_only_try_except {A} (m : M A) (h : exception -> M A) :
  touches_only path m -> (forall e, touches_only path (h e)) ->
  touches_only path (try_except m h).
Proof.
  intros Hm Hh w p Hp. unfold try_except.
  specialize (Hm w p Hp). destruct (m w) as [[a|e] w1]; simpl in *.
  - exact Hm.
  - by rewrite (Hh e w1 p Hp).
Qed.

Lemma touches_only_Image_open q : touches_only path (Image_open E q).
Proof.
  intros w p _. unfold Image_open. by destruct (files w !! q).
Qed.

Lemma touches_only_unlink : touches_only path (os_unlink path).
Proof.
  intros w p Hp. unfold os_unlink.
  destruct (files w !! path); [|done]. simpl. by apply lookup_delete_ne.
Qed.

Lemma touches_only_imwrite m : touches_only path (cv2_imwrite E path m).
Proof.
  intros w p Hp. unfold cv2_imwrite.
  destruct (cv2_imencode E path m) as [[b|]|e]; [|done..].
  simpl. by apply lookup_insert_ne.
Qed.

Lemma touches_only_dispatch barcode_data barcode_type :
  touches_only path (get_medicine_info_from_barcode E barcode_data barcode_type).
Proof.
  intros w p _.
  destruct (get_medicine_info_from_barcode_cases E barcode_data barcode_type w)
    as (e & b & q & w' & -> & Hf & _).
  simpl. by rewrite Hf.
Qed.

Lemma touches_only_process_first syms :
  touches_only path (process_first E syms).
Proof. intros w p _. by rewrite process_first_files. Qed.

End Frame.

Lemma touches_only_enhance E image_path :
  touches_only (enhanced_path_of image_path)
    (enhance_image_for_barcode E image_path).
Proof.
  unfold enhance_image_for_barcode.
  apply touches_only_bind; [by intros w p _|]. intros img.
  apply touches_only_bind.
  { destruct img; [apply touches_only_lift|apply touches_only_raise]. }
  intros gray. apply touches_only_bind; [apply touches_only_lift|].
  intros blurred. apply touches_only_bind; [apply touches_only_lift|].
  intros thresh. apply touches_only_bind; [apply touches_only_imwrite|].
  intros _. apply touches_only_ret.
Qed.

Lemma touches_only_retry E image_path :
  touches_only (enhanced_path_of image_path) (retry_on_enhanced E image_path).
Proof.
  intros w p Hp. unfold retry_on_enhanced.
  pose proof (touches_only_enhance E image_path w p Hp) as Henh.
  unfold mbind at 1, M_bind at 1, bind at 1.
  destruct (enhance_image_for_barcode E image_path w) as [[ep|e] w1] eqn:Hrun;
    [|exact Henh].
  apply enhance_returns_path in Hrun as ->. simpl in Henh. rewrite <- Henh.
  refine ((_ : touches_only (enhanced_path_of image_path) _) w1 p Hp).
  apply touches_only_bind; [apply touches_only_Image_open|].
  intros img'. apply touches_only_bind; [apply touches_only_lift|].
  intros syms. apply touches_only_bind; [by intros w' p' _|].
  intros present. apply touches_only_bind; [|intros; apply touches_only_ret].
  destruct present; [apply touches_only_unlink|apply touches_only_ret].
Qed.

Lemma touches_only_scan_body E image_path :
  touches_only (enhanced_path_of image_path) (scan_body E image_path).
Proof.
  unfold scan_body.
  apply touches_only_bind; [apply touches_only_Image_open|]. intros img.
  apply touches_only_bind; [apply touches_only_lift|]. intros syms.
  apply touches_only_bind.
  { destruct (is_empty syms); [apply touches_only_retry|apply touches_only_ret]. }
  intros syms'. apply touches_only_bind.
  { destruct (is_empty syms'); [apply touches_only_raise|apply touches_only_ret]. }
  intros _. apply touches_only_process_first.
Qed.

(** X6.  [scan_barcode] changes no file other than the one at the enhanced
    path: every other file is, after the call, what it was before, whether
    the call returns or raises. *)
Theorem scan_barcode_touches_only_enhanced
        (E : capabilities) (image_path : string) (w : world) (p : string) :
  p <> str_replace image_path ".jpg" "_enhanced.jpg" ->
  files (snd (scan_barcode E image_path w)) !! p = files w !! p.
Proof.
  intros Hp. rewrite scan_barcode_world.
  by apply touches_only_scan_body.
Qed.

Lemma scan_barcode_touches_only_enhanced_witness :
  files (snd (scan_barcode (bench (Ok []) (Raise zbar_failure)) "scan.jpg" upload))
    !! "scan.jpg"
  = files upload !! "scan.jpg".
Proof.
  apply (scan_barcode_touches_only_enhanced
           (bench (Ok []) (Raise zbar_failure)) "scan.jpg" upload "scan.jpg").
  vm_compute. discriminate.
Defined.

(** X5.  When [".jpg"] occurs in the path of the image, the enhanced path
    is another path and [scan_barcode] leaves the image file as it was. *)
Theorem scan_barcode_keeps_jpg_input
        (E : capabilities) (image_path : string) (w : world) :
  occurs ".jpg" image_path ->
  str_replace image_path ".jpg" "_enhanced.jpg" <> image_path /\
  files (snd (scan_barcode E image_path w)) !! image_path
  = files w !! image_path.
Proof.
  intros Hocc. pose proof (enhanced_path_differs _ Hocc) as Hne.
  split; [exact Hne|].
  rewrite scan_barcode_world. apply touches_only_scan_body.
  intros Heq. by apply Hne.
Qed.

Lemma scan_barcode_keeps_jpg_input_witness :
  files (snd (scan_barcode (bench (Ok []) (Ok [])) "scan.jpg" upload)) !! "scan.jpg"
  = files upload !! "scan.jpg".
Proof.
  refine (proj2 (scan_barcode_keeps_jpg_input
                   (bench (Ok []) (Ok [])) "scan.jpg" upload _)).
  exists "scan", "". reflexivity.
Defined.

(** X7.  When [".jpg"] does not occur in the path of the image (a name in
    [.png], [.JPG] or [.jpeg]), the enhanced path is the path itself: the
    enhanced image replaces the image, and a retry branch that reaches its
    clean-up removes the image file. *)
Theorem scan_barcode_removes_other_input
        (E : capabilities) (image_path : string) (w : world)
        (img : image E) (ep : string) (w1 : world) (img' : image E)
        (syms : list symbol) :
  ~ occurs ".jpg" image_path ->
  Image_open E image_path w = (Ok img, w) ->
  pyzbar_decode E img = Ok [] ->
  enhance_image_for_barcode E image_path w = (Ok ep, w1) ->
  Image_open E ep w1 = (Ok img', w1) ->
  pyzbar_decode E img' = Ok syms ->
  ep = image_path /\
  is_Some (files w !! image_path) /\
  files (snd (scan_barcode E image_path w)) !! image_path = None.
Proof.
  intros Hno Hopen Hdec Henh Hopen' Hdec'.
  assert (ep = image_path) as Hep.
  { rewrite (enhance_returns_path _ _ _ _ _ Henh).
    by apply enhanced_path_same. }
  split; [exact Hep|]. split; [by eapply Image_open_present|].
  subst ep.
  exact (enhanced_file_removed_when_decoding_returns
           E image_path w img image_path w1 img' syms
           Hopen Hdec Henh Hopen' Hdec').
Qed.

Lemma scan_barcode_removes_other_input_witness :
  let w := World {["scan.png" := photo]} ∅ [] in
  files (snd (scan_barcode (bench (Ok []) (Ok [code128_symbol])) "scan.png" w))
    !! "scan.png" = None.
Proof.
  intros w.
  refine (proj2 (proj2 (scan_barcode_removes_other_input
                   (bench (Ok []) (Ok [code128_symbol])) "scan.png"
                   w photo "scan.png"
                   (with_files (<["scan.png" := thresholded]> (files w)) w)
                   thresholded
                   [code128_symbol] _ _ _ _ _ _))).
  - intros (pre & post & H).
    destruct pre as [|c1 [|c2 [|c3 [|c4 [|c5 [|c6 [|c7 [|c8 [|c9 pre]]]]]]]]];
      vm_compute in H; discriminate H.
  - reflexivity.
  - reflexivity.
  - reflexivity.
  - reflexivity.
  - reflexivity.
Defined.

(** X8.  When the first decoding finds symbols, [scan_barcode] uses the
    first one only and does not enter the retry branch: with a payload
    that decodes, it returns the record assembled from what the dispatcher
    gives for that symbol, and no file is created, changed or removed. *)
Theorem scan_barcode_first_symbol
        (E : capabilities) (image_path : string) (w : world)
        (img : image E) (first : symbol) (others : list symbol)
        (barcode_data : text) :
  Image_open E image_path w = (Ok img, w) ->
  pyzbar_decode E img = Ok (first :: others) ->
  utf8_decode E (sym_data first) = Ok barcode_data ->
  exists info w',
    get_medicine_info_from_barcode E barcode_data (sym_type first) w
    = (Ok info, w') /\
    scan_barcode E image_path w
    = (Ok (assemble info barcode_data (sym_type first)), w') /\
    files w' = files w.
Proof.
  intros Hopen Hdec Hutf.
  destruct (get_medicine_info_from_barcode_cases E barcode_data (sym_type first) w)
    as (e & b & q & w' & Hinfo & Hfiles & _).
  exists (gs1_record e b q), w'. split; [exact Hinfo|]. split; [|exact Hfiles].
  apply scan_barcode_returns.
  rewrite (scan_body_direct_eq _ _ _ _ _ _ Hopen Hdec).
  unfold process_first.
  rewrite (bind_lift_Ok _ _ _ _ Hutf).
  by rewrite (bind_Ok _ _ _ _ _ Hinfo).
Qed.

Lemma scan_barcode_first_symbol_witness :
  exists info w',
    scan_barcode (bench (Ok [code128_symbol; Symbol [] "EAN13"]) (Ok []))
      "scan.jpg" upload
    = (Ok (assemble info "0112345678901231172406151012345678" "CODE128"), w') /\
    files w' = files upload.
Proof.
  destruct (scan_barcode_first_symbol
              (bench (Ok [code128_symbol; Symbol [] "EAN13"]) (Ok []))
              "scan.jpg" upload photo code128_symbol [Symbol [] "EAN13"]
              "0112345678901231172406151012345678")
    as (info & w' & _ & Hscan & Hfiles).
  - reflexivity.
  - reflexivity.
  - reflexivity.
  - by exists info, w'.
Defined.

(** ** [parse_ai_response] *)

Section BracesFacts.
Import Braces.
Implicit Types (s pre mid post : text) (c : char).

Lemma after_last_close_Some mid post :
  without (code "}") post ->
  after_last_close (mid +++ "}" +++ post) = Some post.
Proof.
  intros Hpost.
  assert (Hnone : after_last_close post = None).
  { unfold without in Hpost. induction post as [|c post IH]; [reflexivity|].
    cbn [forallb] in Hpost. apply andb_true_iff in Hpost as [Hc Hpost].
    cbn [after_last_close]. rewrite (IH Hpost). apply negb_true_iff in Hc.
    rewrite N.eqb_sym in Hc. by rewrite Hc. }
  induction mid as [|c mid IH].
  - cbn [app after_last_close]. by rewrite Hnone.
  - cbn [app after_last_close] in *. by rewrite IH.
Qed.

Lemma after_last_close_inv s post :
  after_last_close s = Some post ->
  exists mid, s = mid +++ "}" +++ post /\ without (code "}") post.
Proof.
  revert post. induction s as [|c s IH]; intros post; [discriminate|].
  cbn [after_last_close]. destruct (after_last_close s) as [post'|] eqn:Hs.
  - intros [= <-]. destruct (IH _ eq_refl) as (mid & -> & Hpost).
    by exists (c :: mid).
  - destruct (N.eqb (code "}") c) eqn:Hc; [|discriminate].
    apply N.eqb_eq in Hc as <-. intros [= <-].
    exists []. split; [reflexivity|].
    clear IH. unfold without. induction s as [|c s IH]; [reflexivity|].
    cbn [after_last_close] in Hs.
    destruct (after_last_close s); [discriminate|].
    destruct (N.eqb (code "}") c) eqn:Hc; [discriminate|].
    cbn [forallb]. rewrite N.eqb_sym, Hc. by apply IH.
Qed.

(** The greedy star followed by a closing brace stops at the last closing
    brace. *)
Lemma match_star_close {R} (f : text -> R) s :
  match_star any_char
    (Re.match_times (N.eqb (code "}")) 1 (fun rest => Some (f rest))) s
  = f <$> after_last_close s.
Proof.
  set (k := Re.match_times (N.eqb (code "}")) 1 (fun rest => Some (f rest))).
  assert (Hk : forall c s', k (c :: s')
                            = if N.eqb (code "}") c then Some (f s') else None)
    by reflexivity.
  assert (Hplus : forall s, Re.match_plus any_char k s
                            = match s with
                              | _ :: s' => f <$> after_last_close s'
                              | [] => None
                              end).
  { clear s. induction s as [|c s IH]; [reflexivity|].
    cbn [Re.match_plus any_char]. rewrite IH.
    destruct s as [|c' s]; [reflexivity|].
    rewrite Hk. cbn [after_last_close].
    destruct (after_last_close s); [reflexivity|].
    by destruct (N.eqb (code "}") c'). }
  unfold match_star. rewrite Hplus.
  destruct s as [|c s]; [reflexivity|].
  rewrite Hk. cbn [after_last_close].
  destruct (after_last_close s); [reflexivity|].
  by destruct (N.eqb (code "}") c).
Qed.

Lemma match_here_braces s :
  match_here s
  = match s with
    | c :: s1 =>
        if N.eqb (code "{") c
        then (fun post => take (length s - length post) s)
               <$> after_last_close s1
        else None
    | [] => None
    end.
Proof.
  unfold match_here. destruct s as [|c s1]; [reflexivity|].
  cbn [Re.match_times]. destruct (N.eqb (code "{") c); [|reflexivity].
  apply match_star_close.
Qed.

Lemma match_here_found mid post :
  without (code "}") post ->
  match_here ("{" +++ mid +++ "}" +++ post) = Some ("{" +++ mid +++ "}").
Proof.
  intros Hpost. rewrite match_here_braces.
  change ("{" +++ mid +++ "}" +++ post)
    with (code "{" :: (mid +++ "}" +++ post)).
  cbv beta iota.
  rewrite N.eqb_refl, (after_last_close_Some _ _ Hpost).
  cbn [fmap option_fmap option_map]. f_equal.
  replace (code "{" :: (mid +++ "}" +++ post))
    with (("{" +++ mid +++ "}") ++ post)
    by (cbn [app]; by rewrite <- !app_assoc).
  apply take_group.
Qed.

Lemma search_found pre mid post :
  without (code "{") pre -> without (code "}") post ->
  search (pre +++ "{" +++ mid +++ "}" +++ post) = Some ("{" +++ mid +++ "}").
Proof.
  intros Hpre Hpost. unfold without in Hpre.
  induction pre as [|c pre IH].
  - cbn [app].
    assert (Hm := match_here_found mid post Hpost). cbn [app] in Hm.
    cbn [search]. by rewrite Hm.
  - cbn [forallb] in Hpre. apply andb_true_iff in Hpre as [Hc Hpre].
    cbn [app search].
    rewrite match_here_braces. apply negb_true_iff in Hc.
    rewrite N.eqb_sym, Hc. by apply IH.
Qed.

Lemma search_inv s g :
  search s = Some g ->
  exists pre mid post, s = pre +++ "{" +++ mid +++ "}" +++ post.
Proof.
  induction s as [|c s IH]; cbn [search].
  - rewrite match_here_braces. discriminate.
  - destruct (match_here (c :: s)) as [g'|] eqn:Hm.
    + intros _. rewrite match_here_braces in Hm.
      destruct (N.eqb (code "{") c) eqn:Hc; [|discriminate].
      apply N.eqb_eq in Hc as <-.
      destruct (after_last_close s) as [post|] eqn:Hs; [|discriminate].
      apply after_last_close_inv in Hs as (mid & -> & _).
      by exists [], mid, post.
    + intros (pre & mid & post & ->)%IH.
      by exists (c :: pre), mid, post.
Qed.

(** A text without an opening brace holds no pair of braces. *)
Lemma no_open_no_braces s :
  without (code "{") s ->
  forall pre mid post, s <> pre +++ "{" +++ mid +++ "}" +++ post.
Proof.
  unfold without. intros Hs pre mid post ->.
  rewrite forallb_app in Hs. apply andb_true_iff in Hs as [_ Hs].
  cbn [app forallb] in Hs. by rewrite N.eqb_refl in Hs.
Qed.

End BracesFacts.

(** X9.  When [json.loads] rejects the whole answer, [parse_ai_response]
    parses the text from the first opening brace to the last closing brace
    of the answer, and returns or raises what [json.loads] does on it. *)
Theorem parse_ai_response_extracts
        (json_value : Type) (json_loads : text -> result json_value)
        (pre mid post : text) (e : exception) :
  let answer := pre +++ "{" +++ mid +++ "}" +++ post in
  without (code "{") pre -> without (code "}") post ->
  json_loads answer = Raise e -> is_JSONDecodeError e = true ->
  parse_ai_response json_value json_loads answer
  = json_loads ("{" +++ mid +++ "}").
Proof.
  intros answer Hpre Hpost Hfail Herr. unfold parse_ai_response.
  rewrite Hfail, Herr. unfold answer.
  by rewrite (search_found pre mid post Hpre Hpost).
Qed.

Lemma parse_ai_response_extracts_witness :
  parse_ai_response pyval loads_empty_object "Here you are: {} Done."
  = Ok (VDict []).
Proof.
  apply (parse_ai_response_extracts pyval loads_empty_object
           "Here you are: " "" " Done."
           (Exc (LibraryError "json.JSONDecodeError") "Expecting value"));
    reflexivity.
Defined.

(** X10.  When [json.loads] rejects the whole answer and no closing brace
    follows an opening brace in it, [parse_ai_response] raises the
    [ValueError] ["Failed to parse JSON response from AI"]. *)
Theorem parse_ai_response_no_braces
        (json_value : Type) (json_loads : text -> result json_value)
        (answer : text) (e : exception) :
  (forall pre mid post, answer <> pre +++ "{" +++ mid +++ "}" +++ post) ->
  json_loads answer = Raise e -> is_JSONDecodeError e = true ->
  parse_ai_response json_value json_loads answer
  = Raise (Exc ValueError "Failed to parse JSON response from AI").
Proof.
  intros Hno Hfail Herr. unfold parse_ai_response. rewrite Hfail, Herr.
  destruct (Braces.search answer) as [g|] eqn:Hs; [|reflexivity].
  apply search_inv in Hs as (pre & mid & post & Hs). by destruct (Hno _ _ _ Hs).
Qed.

Lemma parse_ai_response_no_braces_witness :
  parse_ai_response pyval loads_empty_object "}{"
  = Raise (Exc ValueError "Failed to parse JSON response from AI").
Proof.
  apply (parse_ai_response_no_braces pyval loads_empty_object "}{"
           (Exc (LibraryError "json.JSONDecodeError") "Expecting value"));
    [|reflexivity..].
  intros pre mid post H.
  destruct pre as [|c1 [|c2 [|c3 pre]]]; cbn [app] in H; try discriminate H.
  injection H as _ H. destruct mid; discriminate H.
Defined.

(** ** [extract_info] *)

Section ExtractFacts.
Variable E : capabilities.
Variable W : web.

Lemma os_unlink_Ok_inv path w w' :
  os_unlink path w = (Ok tt, w') -> w' = with_files (delete path (files w)) w.
Proof.
  unfold os_unlink. destruct (files w !! path); [|discriminate].
  by intros [= <-].
Qed.

Lemma extract_try_Ok_inv scan_type image_path w response w' :
  extract_try E W scan_type image_path w = (Ok response, w') ->
  files w' !! image_path = None.
Proof.
  unfold extract_try.
  intros (result_json & w1 & _ & H)%bind_Ok_inv.
  apply bind_Ok_inv in H as ([] & w2 & Hunlink & H).
  apply bind_Ok_inv in H as (content & w3 & Hrender & H).
  unfold lift in Hrender. injection Hrender as _ <-.
  injection H as _ <-.
  apply os_unlink_Ok_inv in Hunlink as ->. simpl. apply lookup_delete_eq.
Qed.

Lemma cleanup_removes image_path w :
  files (snd ((present ← os_path_exists image_path;
               when present (os_unlink image_path)) w)) !! image_path = None.
Proof.
  unfold mbind, M_bind, bind, os_path_exists, when, os_unlink.
  destruct (files w !! image_path) as [b|] eqn:Hb.
  - rewrite bool_decide_eq_true_2 by eauto. rewrite Hb. simpl.
    apply lookup_delete_eq.
  - rewrite bool_decide_eq_false_2 by (intros [? ?]; congruence). exact Hb.
Qed.

End ExtractFacts.

(** X11.  Whatever the kind of scan, the uploaded bytes, the libraries and
    the outcome, the temporary file [extract_info] stores the upload in is
    gone when the endpoint is left. *)
Theorem extract_info_removes_upload
        (E : capabilities) (W : web) (scan_type : ScanType)
        (file : bytes) (tmp_stem : string) (w : world) :
  files (snd (extract_info E W scan_type file tmp_stem w))
    !! (tmp_stem +:+ ".jpg") = None.
Proof.
  unfold extract_info.
  destruct (extract_try E W scan_type _ _) as [[response|e] w1] eqn:Hrun.
  - simpl. by eapply extract_try_Ok_inv.
  - cbn [snd]. apply cleanup_removes.
Qed.

(** X12.  When [scan_barcode] returns a record for the stored upload and
    the record renders, the barcode branch of [extract_info] answers with
    status 200 and that record, and removes the upload. *)
Theorem extract_info_barcode_returns
        (E : capabilities) (W : web) (file : bytes) (tmp_stem : string)
        (w : world) (record : dict) (w' : world) (content : string) :
  let image_path := tmp_stem +:+ ".jpg" in
  scan_barcode E image_path (with_files (<[image_path := file]> (files w)) w)
  = (Ok record, w') ->
  render W (inl record) = Ok content ->
  extract_info E W BARCODE file tmp_stem w
  = (Returned (JSONResponse content 200),
     with_files (delete image_path (files w')) w').
Proof.
  intros image_path Hscan Hrender. unfold extract_info, extract_try.
  fold image_path.
  set (w0 := with_files (<[image_path := file]> (files w)) w) in *.
  assert (Hkept : files w' !! image_path = Some file).
  { assert (Hne : image_path <> enhanced_path_of image_path).
    { intros Heq. symmetry in Heq. revert Heq. apply enhanced_path_differs.
      exists tmp_stem, "". unfold image_path. by rewrite str_app_nil_r. }
    pose proof (touches_only_scan_body E image_path w0 image_path Hne) as Hf.
    rewrite <- scan_barcode_world, Hscan in Hf. simpl in Hf.
    rewrite Hf. unfold w0. simpl. apply lookup_insert_eq. }
  unfold mbind, M_bind, bind, mret, M_ret, ret, lift, os_unlink.
  by rewrite Hscan, Hkept, Hrender.
Qed.

Lemma extract_info_barcode_returns_witness :
  fst (extract_info (bench (Ok [code128_symbol]) (Ok [])) desk BARCODE
         photo "upload" (World ∅ ∅ []))
  = Returned (JSONResponse "{...}" 200).
Proof.
  erewrite (extract_info_barcode_returns
              (bench (Ok [code128_symbol]) (Ok [])) desk photo "upload"
              (World ∅ ∅ [])); [reflexivity| |].
  - reflexivity.
  - reflexivity.
Defined.

(** X13.  When [scan_barcode] raises for the stored upload, the barcode
    branch of [extract_info] answers with an [HTTPException] of status 500
    whose detail is the message of the [ValueError], which begins with
    ["Barcode scanning failed: "]. *)
Theorem extract_info_barcode_fails
        (E : capabilities) (W : web) (file : bytes) (tmp_stem : string)
        (w : world) (e : exception) (w' : world) :
  let image_path := tmp_stem +:+ ".jpg" in
  scan_barcode E image_path (with_files (<[image_path := file]> (files w)) w)
  = (Raise e, w') ->
  fst (extract_info E W BARCODE file tmp_stem w) = HTTPException 500 (exc_msg e) /\
  exists reason, exc_msg e = "Barcode scanning failed: " +:+ reason.
Proof.
  intros image_path Hscan. split.
  - unfold extract_info, extract_try. fold image_path.
    unfold mbind at 1, M_bind at 1, bind at 1.
    unfold mbind at 1, M_bind at 1, bind at 1.
    by rewrite Hscan.
  - assert (Hfst : fst (scan_barcode E image_path
                          (with_files (<[image_path := file]> (files w)) w))
                   = Raise e) by (by rewrite Hscan).
    apply scan_barcode_Raise_inv in Hfst as [reason ->]. by exists reason.
Qed.

Lemma extract_info_barcode_fails_witness :
  fst (extract_info (bench (Ok []) (Ok [])) desk BARCODE
         photo "upload" (World ∅ ∅ []))
  = HTTPException 500 "Barcode scanning failed: No barcode detected in the image".
Proof.
  refine (proj1 (extract_info_barcode_fails
                   (bench (Ok []) (Ok [])) desk photo "upload" (World ∅ ∅ [])
                   (ScanFailed "No barcode detected in the image")
                   _ _)).
  reflexivity.
Defined.

(** ** [get_image] *)

(** X14.  [get_image] never returns an image: every call ends in an
    [HTTPException] of status 500.  For a stored record with image data the
    detail is the [NameError] of the unbound name [Response]; a missing
    record gives the wrapped 404, not a 404. *)
Theorem get_image_always_500
        (D : Type) (find_one : string -> result (option (gmap string D)))
        (http_exception_str : Z -> string -> string) (image_id : string) :
  (exists detail,
     get_image D find_one http_exception_str image_id
     = HTTPException 500 detail) /\
  (forall record data,
     find_one image_id = Ok (Some record) ->
     record !! "image_data" = Some data ->
     get_image D find_one http_exception_str image_id
     = HTTPException 500 "name 'Response' is not defined") /\
  (find_one image_id = Ok None ->
   get_image D find_one http_exception_str image_id
   = HTTPException 500 (http_exception_str 404%Z "Image not found")).
Proof.
  split_and!.
  - unfold get_image. destruct (find_one image_id) as [record|e]; [|by eexists].
    cbn [rbind]. destruct (falsy D record || lacks D "image_data" record);
      by eexists.
  - intros record data Hfind Hdata. unfold get_image. rewrite Hfind.
    cbn [rbind]. unfold falsy, lacks. cbn [mbind option_bind]. rewrite Hdata.
    destruct (Nat.eqb (size record) 0) eqn:Hsize; [|reflexivity].
    apply Nat.eqb_eq, map_size_empty_inv in Hsize. subst record.
    by rewrite lookup_empty in Hdata.
  - intros Hfind. unfold get_image. by rewrite Hfind.
Qed.

Lemma get_image_always_500_witness :
  get_image string one_image (fun status detail => detail) "42"
  = HTTPException 500 "name 'Response' is not defined".
Proof.
  refine (proj1 (proj2 (get_image_always_500 string one_image
                          (fun status detail => detail) "42"))
            {["_id" := "42"; "image_data" := "UA=="]} "UA==" _ _).
  - reflexivity.
  - vm_compute; reflexivity.
Defined.

(** ** The image branch of [extract_info] *)

(** The loop over the stream joins the contents of the first choices. *)
Lemma output_text_concat (stream : list chunk) (out : text) :
  fold_left (fun out c => out +++ chunk_part c) stream out
  = out +++ concat (map chunk_part stream).
Proof.
  revert out. induction stream as [|c stream IH]; intros out.
  - by rewrite app_nil_r.
  - cbn [fold_left map concat]. by rewrite IH, app_assoc.
Qed.

(** X15.  In the image branch the prompt and the encoded upload go to the
    model and the contents of the first choices of the chunks are joined;
    when that text is not JSON and holds no opening brace followed by a
    closing one, [extract_info] answers with an [HTTPException] of status
    500 and the detail ["Failed to parse JSON response from AI"]. *)
Theorem extract_info_image_unparsable
        (E : capabilities) (W : web) (file : bytes) (tmp_stem : string)
        (w : world) (stream : list chunk) (e : exception) :
  let answer := concat (map chunk_part stream) in
  chat_stream W get_prompt_by_scan_type (b64encode W file) = Ok stream ->
  web_json_loads W answer = Raise e -> is_JSONDecodeError e = true ->
  (forall pre mid post, answer <> pre +++ "{" +++ mid +++ "}" +++ post) ->
  fst (extract_info E W IMAGE file tmp_stem w)
  = HTTPException 500 "Failed to parse JSON response from AI".
Proof.
  intros answer Hstream Hloads Herr Hno.
  unfold extract_info, extract_try, encode_image.
  unfold mbind, M_bind, bind, lift. cbn [files with_files].
  rewrite lookup_insert_eq, Hstream.
  rewrite output_text_concat. cbn [app]. fold answer.
  unfold parse_ai_response. rewrite Hloads, Herr.
  destruct (Braces.search answer) as [g|] eqn:Hs; [|reflexivity].
  apply search_inv in Hs as (pre & mid & post & Hs). by destruct (Hno _ _ _ Hs).
Qed.

Lemma extract_info_image_unparsable_witness :
  fst (extract_info (bench (Ok []) (Ok []))
         (Web pyval loads_empty_object (fun _ => "UA==")
            (fun _ _ => Ok [[Some "I see "%text; Some "x"%text]; []; [None];
                            [Some "a label"%text]])
            (fun _ => Ok ""))
         IMAGE photo "upload" (World ∅ ∅ []))
  = HTTPException 500 "Failed to parse JSON response from AI".
Proof.
  apply (extract_info_image_unparsable _ _ photo "upload" (World ∅ ∅ [])
           [[Some "I see "%text; Some "x"%text]; []; [None];
            [Some "a label"%text]]
           (Exc (LibraryError "json.JSONDecodeError") "Expecting value"));
    try reflexivity.
  by apply no_open_no_braces.
Defined.
